(** * funcache: a validity-checked memoization decorator

    Shallow embedding of [funcache.py] and proofs about the closure
    [wrapper] that [cache(...)(function)] returns.

    Python values are modelled by the fragment the cache handles by
    itself: [None], integers, strings, tuples (immutable, compared by
    value) and lists (mutable objects living in a heap, so that aliasing
    between the cached instance and the objects handed to callers is
    visible).  Floats, booleans and user classes are outside the
    fragment. *)

From stdpp Require Import gmap strings list fin_maps countable.

Open Scope string_scope.
Open Scope list_scope.

(** ** Python values *)

Definition loc := nat.

Unset Elimination Schemes.
Inductive pyval :=
| VNone
| VInt (z : Z)
| VStr (s : string)
| VTuple (items : list pyval)
| VList (l : loc).
Set Elimination Schemes.

(** Encoding into [gen_tree], which gives decidable equality and
    countability, so that values can be dictionary keys. *)
Fixpoint pyval_enc (v : pyval) : gen_tree (Z + string + loc) :=
  match v with
  | VNone => GenNode 0 []
  | VInt z => GenLeaf (inl (inl z))
  | VStr s => GenLeaf (inl (inr s))
  | VTuple items => GenNode 1 (map pyval_enc items)
  | VList l => GenLeaf (inr l)
  end.

Fixpoint pyval_dec (t : gen_tree (Z + string + loc)) : pyval :=
  match t with
  | GenLeaf (inl (inl z)) => VInt z
  | GenLeaf (inl (inr s)) => VStr s
  | GenLeaf (inr l) => VList l
  | GenNode 1 ts => VTuple (map pyval_dec ts)
  | GenNode _ _ => VNone
  end.

Fixpoint pyval_size (v : pyval) : nat :=
  match v with
  | VTuple items => S (list_sum (map pyval_size items))
  | _ => 1
  end.

Lemma pyval_size_elem (x : pyval) (xs : list pyval) :
  x ∈ xs → (pyval_size x ≤ list_sum (map pyval_size xs))%nat.
Proof.
  induction 1 as [x xs | x y xs _ IH]; simpl; lia.
Qed.

(** Induction principle that reaches inside tuples. *)
Lemma pyval_ind (P : pyval → Prop) :
  P VNone →
  (∀ z, P (VInt z)) →
  (∀ s, P (VStr s)) →
  (∀ items, Forall P items → P (VTuple items)) →
  (∀ l, P (VList l)) →
  ∀ v, P v.
Proof.
  intros HN HI HS HT HL v.
  remember (pyval_size v) as n eqn:Hn.
  revert v Hn. induction (lt_wf n) as [n _ IH]. intros v ->.
  destruct v as [| | |items|]; auto.
  apply HT, Forall_forall. intros x Hx. apply list_elem_of_In in Hx.
  apply (IH (pyval_size x)); [|done].
  simpl. pose proof (pyval_size_elem _ _ Hx). lia.
Qed.

Lemma pyval_dec_enc (v : pyval) : pyval_dec (pyval_enc v) = v.
Proof.
  induction v as [| | |items IH|] using pyval_ind; simpl; try done.
  f_equal. induction IH as [|x xs Hx _ IHxs]; simpl; [done|].
  by rewrite Hx, IHxs.
Qed.

#[global] Instance pyval_eq_dec : EqDecision pyval.
Proof.
  intros x y.
  destruct (decide (pyval_enc x = pyval_enc y)) as [H|H]; [left|right].
  - apply (f_equal pyval_dec) in H. by rewrite !pyval_dec_enc in H.
  - congruence.
Defined.

#[global] Instance pyval_countable : Countable pyval :=
  inj_countable' pyval_enc pyval_dec pyval_dec_enc.

(** ** Exceptions and results *)

Inductive exn :=
| TypeError
| NameError
| ValueError
| KeyError
| EOFError
| RecursionError
| OSError
| UserError (msg : string).

#[global] Instance exn_eq_dec : EqDecision exn.
Proof. solve_decision. Defined.

(** A computation either raises or returns. *)
Abbreviation res A := (exn + A)%type.

Abbreviation Raise e := (inl e) (only parsing).
Abbreviation Return a := (inr a) (only parsing).

(** ** The heap of list objects *)

(** A location that was never allocated reads as the empty list. *)
Definition heap_get (h : gmap loc (list pyval)) (l : loc) : list pyval :=
  default [] (h !! l).

(** ** Hashability, truth value, equality *)

(** [hash(v)]: lists are unhashable, and so is a tuple that holds one. *)
Fixpoint hashable (v : pyval) : bool :=
  match v with
  | VList _ => false
  | VTuple items => forallb hashable items
  | _ => true
  end.

(** [bool(v)] *)
Definition truthy (h : gmap loc (list pyval)) (v : pyval) : bool :=
  match v with
  | VNone => false
  | VInt z => negb (z =? 0)%Z
  | VStr s => negb (String.eqb s "")
  | VTuple items => negb (bool_decide (items = []))
  | VList l => negb (bool_decide (heap_get h l = []))
  end.

(** Item-wise comparison of two sequences: stops at the first pair that
    differs (or raises); sequences of different lengths are different. *)
Fixpoint py_eq_items (eq : pyval → pyval → res bool) (xs ys : list pyval)
  : res bool :=
  match xs, ys with
  | [], [] => Return true
  | x :: xs', y :: ys' =>
      match eq x y with
      | inr true => py_eq_items eq xs' ys'
      | r => r
      end
  | _, _ => Return false
  end.

(** [a == b].  Values that are the same compare equal at once (the
    identity shortcut of CPython's containers; immutable values have no
    identity of their own here).  Otherwise tuples and lists are compared
    item by item, lists through the heap; [fuel] is the interpreter's
    recursion limit, and running out of it is [RecursionError] (two
    distinct lists that each contain themselves). *)
Fixpoint py_eq (fuel : nat) (h : gmap loc (list pyval)) (a b : pyval)
  : res bool :=
  if decide (a = b) then Return true else
  match fuel with
  | O => Raise RecursionError
  | S n =>
      match a, b with
      | VTuple xs, VTuple ys => py_eq_items (py_eq n h) xs ys
      | VList l, VList l' =>
          if decide (length (heap_get h l) = length (heap_get h l'))
          then py_eq_items (py_eq n h) (heap_get h l) (heap_get h l')
          else Return false
      | _, _ => Return false
      end
  end.

Definition recursion_limit : nat := 1000.

(** ** The world outside the cache *)

(** What the module takes from the standard library and the operating
    system.  [fs] is the state of the file system. *)
Class Library (fs : Type) := {
  (** [hashlib.md5(json.dumps([args, kwargs], sort_keys=True)
      .encode('utf-8')).hexdigest()] *)
  json_dumps_md5 : gmap loc (list pyval) → pyval → pyval → res string;
  (** formatting of a value inside an f-string *)
  format_str : gmap loc (list pyval) → pyval → string;
  os_path_join : string → string → string → string;
  os_path_dirname : string → string;
  os_path_exists : fs → string → bool;
  os_makedirs : fs → string → res unit * fs;
  (** [open(path, 'rb')] followed by reading the whole file *)
  read_file : fs → string → res string;
  (** [open(path, 'wb')] followed by writing the whole file *)
  write_file : fs → string → string → res unit * fs;
  pickle_dumps : gmap loc (list pyval) → pyval → res string;
  (** [pickle.load]: builds the value, allocating its lists *)
  pickle_loads : gmap loc (list pyval) → string →
                 res pyval * gmap loc (list pyval);
  (** [hashlib.sha256] of the whole content, as a hex digest *)
  sha256_hexdigest : string → string;
}.

(** Operations of the cache on the disk, recorded as they happen. *)
Inductive disk_op :=
| OpExists (path : string)
| OpMakedirs (path : string)
| OpRead (path : string)
| OpWrite (path : string).

Section funcache.
Context {fs : Type} `{!Library fs}.

Record world := World {
  heap : gmap loc (list pyval);
  disk : fs;
}.

(** A Python callable taking [*args, **kwargs]: it may read and change
    the heap and the file system, and returns or raises.  Keyword
    arguments come in the order the call supplied them.  Such a callable
    makes no call through the wrapper; a wrapped function that does (a
    decorated recursive function) is an [rfun], further down. *)
Definition pyfun : Type :=
  list pyval → list (string * pyval) → world → res pyval * world.

(** One invocation of the wrapped function: arguments and outcome. *)
Definition invocation : Type :=
  list pyval * list (string * pyval) * res pyval.

(** The state a wrapper runs in: the world, the two dictionaries of the
    closure, the table of [functools.lru_cache] around [_get_cache_path]
    (its eviction is not modelled) and two records kept for the proofs:
    the invocations of the wrapped function (what the [Mock] of tests.py
    counts) and the disk operations of the cache. *)
Record state := State {
  st_world : world;
  args_hash_result_map : gmap pyval pyval;
  args_return_value_map : gmap pyval pyval;
  path_cache : gmap (list pyval) string;
  calls : list invocation;
  disk_ops : list disk_op;
}.

Definition set_world (w : world) (s : state) : state :=
  State w (args_hash_result_map s) (args_return_value_map s)
        (path_cache s) (calls s) (disk_ops s).
Definition set_heap (h : gmap loc (list pyval)) (s : state) : state :=
  set_world (World h (disk (st_world s))) s.
Definition set_disk (d : fs) (s : state) : state :=
  set_world (World (heap (st_world s)) d) s.
Definition set_args_hash_result_map (m : gmap pyval pyval) (s : state)
  : state :=
  State (st_world s) m (args_return_value_map s)
        (path_cache s) (calls s) (disk_ops s).
Definition set_args_return_value_map (m : gmap pyval pyval) (s : state)
  : state :=
  State (st_world s) (args_hash_result_map s) m
        (path_cache s) (calls s) (disk_ops s).
Definition set_path_cache (m : gmap (list pyval) string) (s : state)
  : state :=
  State (st_world s) (args_hash_result_map s) (args_return_value_map s)
        m (calls s) (disk_ops s).
Definition log_call (c : invocation) (s : state) : state :=
  State (st_world s) (args_hash_result_map s) (args_return_value_map s)
        (path_cache s) (calls s ++ [c]) (disk_ops s).
Definition log_disk (o : disk_op) (s : state) : state :=
  State (st_world s) (args_hash_result_map s) (args_return_value_map s)
        (path_cache s) (calls s) (disk_ops s ++ [o]).

(** The state after [args_hash_result_map[sig] = t] and
    [args_return_value_map[sig] = v]. *)
Definition stored (sig t v : pyval) (s : state) : state :=
  set_args_return_value_map (<[sig := v]> (args_return_value_map s))
    (set_args_hash_result_map (<[sig := t]> (args_hash_result_map s)) s).

(** ** The monad of state and exceptions *)

Definition M (A : Type) : Type := state → res A * state.

Definition ret {A} (a : A) : M A := λ s, (Return a, s).
Definition raise {A} (e : exn) : M A := λ s, (Raise e, s).
Definition bind {A B} (m : M A) (k : A → M B) : M B :=
  λ s, match m s with
       | (inr a, s') => k a s'
       | (inl e, s') => (inl e, s')
       end.
Definition lift {A} (r : res A) : M A := λ s, (r, s).
Definition gets {A} (f : state → A) : M A := λ s, (Return (f s), s).
Definition modify (f : state → state) : M unit := λ s, (Return tt, f s).

(** [try: body except EOFError: handler] *)
Definition try_except_EOFError {A} (body handler : M A) : M A :=
  λ s, match body s with
       | (inl EOFError, s') => handler s'
       | r => r
       end.

End funcache.

Notation "'let*' x ':=' m 'in' k" := (bind m (λ x, k))
  (at level 10, x pattern, m at level 100, k at level 200,
   format "'[v' 'let*'  x  :=  m  'in'  '/' k ']'").

Section cache.
Context {fs : Type} `{!Library fs}.

(** ** Dictionaries keyed by Python values *)

(** [k in d]: the key is hashed first. *)
Definition dict_contains (d : gmap pyval pyval) (k : pyval) : res bool :=
  if hashable k then Return (bool_decide (is_Some (d !! k)))
  else Raise TypeError.

(** [d[k]] *)
Definition dict_getitem (d : gmap pyval pyval) (k : pyval) : res pyval :=
  if hashable k then
    match d !! k with
    | Some v => Return v
    | None => Raise KeyError
    end
  else Raise TypeError.

(** [d[k] = v] *)
Definition dict_setitem (d : gmap pyval pyval) (k v : pyval)
  : res (gmap pyval pyval) :=
  if hashable k then Return (<[k := v]> d) else Raise TypeError.

(** ** Module-level names *)

(** The names bound in the module: its five imports and its own
    definitions.  There is no [import json]. *)
Definition module_globals : list string :=
  ["copy"; "functools"; "os"; "hashlib"; "pickle";
   "_get_cache_path"; "_save_to_disk_cache"; "_get_from_disk_cache";
   "_is_in_disk_cache"; "cache"; "filename_cache_hash_fn";
   "filename_cache"].

Definition global_name (name : string) : M (fs := fs) unit :=
  if bool_decide (name ∈ module_globals) then ret tt else raise NameError.

(** ** The disk helpers *)

(** [module, function, args, kwargs = call_signature] *)
Definition unpack4 (v : pyval) : M (fs := fs) (pyval * pyval * pyval * pyval) :=
  match v with
  | VTuple [a; b; c; d] => ret (a, b, c, d)
  | VTuple _ => raise ValueError
  | VList l =>
      let* h := gets (λ s, heap (st_world s)) in
      match heap_get h l with
      | [a; b; c; d] => ret (a, b, c, d)
      | _ => raise ValueError
      end
  | VStr s =>
      match s with
      | String a (String b (String c (String d EmptyString))) =>
          ret (VStr (String a EmptyString), VStr (String b EmptyString),
               VStr (String c EmptyString), VStr (String d EmptyString))
      | _ => raise ValueError
      end
  | _ => raise TypeError
  end.

Definition path_exists (path : string) : M (fs := fs) bool :=
  λ s, (Return (os_path_exists (disk (st_world s)) path),
        log_disk (OpExists path) s).

Definition makedirs (path : string) : M (fs := fs) unit :=
  λ s, let '(r, d) := os_makedirs (disk (st_world s)) path in
       (r, log_disk (OpMakedirs path) (set_disk d s)).

(** The body of [_get_cache_path], called with the positional arguments
    [args]: a call with other than three arguments is a [TypeError]. *)
Definition _get_cache_path_body (args : list pyval) : M (fs := fs) string :=
  match args with
  | [diskcache_dir; call_signature; key] =>
      let* (module, function, args, kwargs) := unpack4 call_signature in
      let* _ := global_name "json" in
      let* h := gets (λ s, heap (st_world s)) in
      let* hashval := lift (json_dumps_md5 h args kwargs) in
      let filename :=
        format_str h module +:+ "/" +:+ format_str h function +:+ "/"
        +:+ hashval +:+ "." +:+ format_str h key in
      match diskcache_dir with
      | VStr dir =>
          let path := os_path_join dir "func_cache" filename in
          let* found := path_exists (os_path_dirname path) in
          let* _ := (if negb found then makedirs (os_path_dirname path)
                     else ret tt) in
          ret path
      | _ => raise TypeError
      end
  | _ => raise TypeError
  end.

(** [_get_cache_path] as decorated by [functools.lru_cache()]: the
    arguments are hashed, the table is consulted, and a result (not an
    exception) is stored. *)
Definition _get_cache_path (args : list pyval) : M (fs := fs) string :=
  if forallb hashable args then
    let* table := gets path_cache in
    match table !! args with
    | Some path => ret path
    | None =>
        let* path := _get_cache_path_body args in
        let* _ := modify (λ s, set_path_cache (<[args := path]> (path_cache s)) s) in
        ret path
    end
  else raise TypeError.

Definition _save_to_disk_cache (args : list pyval) : M (fs := fs) unit :=
  match args with
  | [diskcache_dir; call_signature; key; return_value] =>
      let* filepath := _get_cache_path [diskcache_dir; call_signature; key] in
      let* h := gets (λ s, heap (st_world s)) in
      let* data := lift (pickle_dumps h return_value) in
      λ s, let '(r, d) := write_file (disk (st_world s)) filepath data in
           (r, log_disk (OpWrite filepath) (set_disk d s))
  | _ => raise TypeError
  end.

Definition _get_from_disk_cache (args : list pyval) : M (fs := fs) pyval :=
  match args with
  | [diskcache_dir; call_signature; key] =>
      let* filepath := _get_cache_path [diskcache_dir; call_signature; key] in
      let* data := (λ s, (read_file (disk (st_world s)) filepath,
                          log_disk (OpRead filepath) s)) in
      λ s, let '(r, h) := pickle_loads (heap (st_world s)) data in
           (r, set_heap h s)
  | _ => raise TypeError
  end.

Definition _is_in_disk_cache (args : list pyval) : M (fs := fs) bool :=
  match args with
  | [call_signature; key] =>
      let* path := _get_cache_path [call_signature; key] in
      path_exists path
  | _ => raise TypeError
  end.

End cache.

(** ** The decorator *)

Section wrapper.
Context {fs : Type} `{!Library fs}.

(** The parameters of [cache] and the decorated function, with its
    [__module__] and [__name__]. *)
Variable retain_hash_fn : pyfun (fs := fs).
Variable return_copy : bool.
Variable diskcache_dir : pyval.
Variable function : pyfun (fs := fs).
Variable function_module function_name : string.

(** A call of a user-supplied callable. *)
Definition call (f : pyfun) (args : list pyval) (kwargs : list (string * pyval))
  : M (fs := fs) pyval :=
  λ s, let '(r, w) := f args kwargs (st_world s) in (r, set_world w s).

(** A call of the wrapped function; the invocation is recorded. *)
Definition invoke (args : list pyval) (kwargs : list (string * pyval))
  : M (fs := fs) pyval :=
  λ s, let '(r, w) := function args kwargs (st_world s) in
       (r, log_call (args, kwargs, r) (set_world w s)).

(** [copy.copy]: a list is copied into a new object that shares its
    items; an immutable value is returned as it is. *)
Definition copy_copy (v : pyval) : M (fs := fs) pyval :=
  match v with
  | VList l =>
      λ s, let h := heap (st_world s) in
           let l' := fresh (dom h) in
           (Return (VList l'), set_heap (<[l' := heap_get h l]> h) s)
  | _ => ret v
  end.

(** [tuple(kwargs.items())]: the pairs in the order of the call. *)
Definition kwargs_items (kwargs : list (string * pyval)) : list pyval :=
  map (λ kv, VTuple [VStr kv.1; kv.2]) kwargs.

(** [(function.__module__, function.__name__, args,
     tuple(kwargs.items()))] *)
Definition call_signature (args : list pyval) (kwargs : list (string * pyval))
  : pyval :=
  VTuple [VStr function_module; VStr function_name;
          VTuple args; VTuple (kwargs_items kwargs)].

Definition is_true (v : pyval) : M (fs := fs) bool :=
  gets (λ s, truthy (heap (st_world s)) v).

Definition store_entry (sig hash_result result : pyval) : M (fs := fs) unit :=
  let* hashes := gets args_hash_result_map in
  let* hashes' := lift (dict_setitem hashes sig hash_result) in
  let* _ := modify (set_args_hash_result_map hashes') in
  let* values := gets args_return_value_map in
  let* values' := lift (dict_setitem values sig result) in
  modify (set_args_return_value_map values').

(** Lines 53-64: if the signature is on disk but not in memory, load
    it.  The local variable [hash_result] is assigned inside the [try]
    block, so the function returns its value afterwards:
    - the first load raises [EOFError]: it keeps its value;
    - the second load raises [EOFError]: it already holds the token
      read from disk, and nothing is stored;
    - both loads succeed: the [else] clause stores the entry. *)
Definition load_from_disk (sig hash_result : pyval) : M (fs := fs) pyval :=
  let* enabled := is_true diskcache_dir in
  if enabled then
    let* values := gets args_return_value_map in
    let* cached := lift (dict_contains values sig) in
    if negb cached then
      let* found := _is_in_disk_cache [sig; VStr "result"] in
      if found then
        let* (hash_result, loaded) :=
          try_except_EOFError
            (let* hash_result :=
               _get_from_disk_cache [sig; VStr "hash_result"] in
             try_except_EOFError
               (let* result := _get_from_disk_cache [sig; VStr "result"] in
                ret (hash_result, Some result))
               (ret (hash_result, None)))
            (ret (hash_result, None)) in
        match loaded with
        | Some result =>
            let* _ := store_entry sig hash_result result in
            ret hash_result
        | None => ret hash_result
        end
      else ret hash_result
    else ret hash_result
  else ret hash_result.

(** Line 68: [call_signature in args_return_value_map and
    hash_result == args_hash_result_map[call_signature]] *)
Definition is_hit (sig hash_result : pyval) : M (fs := fs) bool :=
  let* values := gets args_return_value_map in
  let* cached := lift (dict_contains values sig) in
  if cached then
    let* hashes := gets args_hash_result_map in
    let* stored := lift (dict_getitem hashes sig) in
    let* h := gets (λ s, heap (st_world s)) in
    lift (py_eq recursion_limit h hash_result stored)
  else ret false.

(** Lines 68-75: serve the cached value or compute and store. *)
Definition lookup_or_compute (args : list pyval) (kwargs : list (string * pyval))
    (sig hash_result : pyval) : M (fs := fs) pyval :=
  let* hit := is_hit sig hash_result in
  if hit then
    let* values := gets args_return_value_map in
    let* res := lift (dict_getitem values sig) in
    if return_copy then copy_copy res else ret res
  else
    let* res := invoke args kwargs in
    let* _ := store_entry sig hash_result res in
    ret res.

(** Lines 77-79: write the entry to disk unless a record exists. *)
Definition save_to_disk (sig hash_result res : pyval) : M (fs := fs) unit :=
  let* enabled := is_true diskcache_dir in
  if enabled then
    let* found := _is_in_disk_cache [sig; VStr "result"] in
    if negb found then
      let* _ := _save_to_disk_cache [sig; VStr "result"; res] in
      _save_to_disk_cache [sig; VStr "hash_result"; hash_result]
    else ret tt
  else ret tt.

(** The closure [wrapper], called with [*args] and [**kwargs]. *)
Definition wrapper (args : list pyval) (kwargs : list (string * pyval))
  : M (fs := fs) pyval :=
  let* hash_result := call retain_hash_fn args kwargs in
  let sig := call_signature args kwargs in
  let* hash_result := load_from_disk sig hash_result in
  let* res := lookup_or_compute args kwargs sig hash_result in
  let* _ := save_to_disk sig hash_result res in
  ret res.

(** What can happen to the state of one wrapper: a call through it, or
    the rest of the program changing the heap and the files. *)
Inductive step (s : state) : state → Prop :=
| step_call args kwargs :
    step s (wrapper args kwargs s).2
| step_world w :
    step s (set_world w s).

(** The states a wrapper can be in during the life of the process,
    starting with the empty dictionaries that [cache(...)(function)]
    creates. *)
Definition reachable (s : state) : Prop :=
  ∃ w, rtc step (State w ∅ ∅ ∅ [] []) s.



End wrapper.

(** The default [retain_hash_fn]: [lambda *args, **kwargs: 0] *)
Definition default_retain_hash_fn {fs : Type} : pyfun (fs := fs) :=
  λ _ _ w, (Return (VInt 0), w).

(** [filename_cache_hash_fn(filename, *args, **kwargs)]: the digest of
    the content of the file.  [filename] is the first positional argument
    or, when there is none, the keyword argument of that name.  Only
    paths given as strings are modelled (not file descriptors). *)
Definition filename_cache_hash_fn {fs : Type} `{!Library fs}
  : pyfun (fs := fs) :=
  λ args kwargs w,
    let bound :=
      match args with
      | filename :: _ =>
          if bool_decide ("filename" ∈ map fst kwargs) then Raise TypeError
          else Return filename
      | [] =>
          match list_find (λ kv, kv.1 = "filename") kwargs with
          | Some (_, kv) => Return kv.2
          | None => Raise TypeError
          end
      end in
    match bound with
    | inr (VStr path) =>
        match read_file (disk w) path with
        | inr data => (Return (VStr (sha256_hexdigest data)), w)
        | inl e => (Raise e, w)
        end
    | inr _ => (Raise TypeError, w)
    | inl e => (Raise e, w)
    end.

(** The state when [cache(...)(function)] returns the wrapper: both
    dictionaries are empty. *)
Definition initial_state {fs : Type} (w : world (fs := fs)) : state :=
  State w ∅ ∅ ∅ [] [].

(** What every reachable state satisfies: the table of
    [_get_cache_path] is empty, the cache has not touched the disk, the
    two dictionaries have the same keys, and the keys are hashable. *)
Definition cache_inv {fs : Type} (s : state (fs := fs)) : Prop :=
  path_cache s = ∅ ∧ disk_ops s = [] ∧
  dom (args_hash_result_map s) = dom (args_return_value_map s) ∧
  ∀ k, k ∈ dom (args_return_value_map s) → hashable k = true.

(** [diskcache_dir] is false in every heap ([None], the default). *)
Definition disk_tier_off (diskcache_dir : pyval) : Prop :=
  ∀ h, truthy h diskcache_dir = false.

(** [diskcache_dir] is true in every heap (a path that is not empty). *)
Definition disk_tier_on (diskcache_dir : pyval) : Prop :=
  ∀ h, truthy h diskcache_dir = true.

(** [cache(...)(function)]: the wrapper for the parameters that were
    given by keyword, the others taking their defaults
    ([lambda *args, **kwargs: 0], [True], [None]). *)
Definition cache {fs : Type} `{!Library fs}
    (retain_hash_fn : option (pyfun (fs := fs)))
    (return_copy : option bool) (diskcache_dir : option pyval)
    (function : pyfun (fs := fs)) (function_module function_name : string)
  : list pyval → list (string * pyval) → M (fs := fs) pyval :=
  wrapper (default default_retain_hash_fn retain_hash_fn)
          (default true return_copy) (default VNone diskcache_dir)
          function function_module function_name.

(** [filename_cache = functools.partial(cache,
     retain_hash_fn=filename_cache_hash_fn)]: a keyword given at the call
    replaces the one of the partial application. *)
Definition filename_cache {fs : Type} `{!Library fs}
    (retain_hash_fn : option (pyfun (fs := fs)))
    (return_copy : option bool) (diskcache_dir : option pyval)
  : pyfun (fs := fs) → string → string →
    list pyval → list (string * pyval) → M (fs := fs) pyval :=
  cache (Some (default filename_cache_hash_fn retain_hash_fn))
        return_copy diskcache_dir.

(** ** Wrapped functions that call the wrapper *)

Section reentry.
Context {fs : Type} `{!Library fs}.

(** The run of a wrapped function whose body may call the decorated
    name, which is the wrapper (itself, when the function is recursive):
    it ends with an outcome and a world, or it calls the wrapper in some
    world with some arguments and goes on with the outcome of the call
    (a value or an exception, which it may handle) and the world the
    call left. *)
Inductive body :=
| Finish (r : res pyval) (w : world (fs := fs))
| CallWrapper (w : world (fs := fs)) (args : list pyval)
    (kwargs : list (string * pyval))
    (k : res pyval → world (fs := fs) → body).

Definition rfun : Type :=
  list pyval → list (string * pyval) → world (fs := fs) → body.

(** A callable that makes no call through the wrapper, as an [rfun]. *)
Definition of_pyfun (f : pyfun (fs := fs)) : rfun :=
  λ args kwargs w, let '(r, w') := f args kwargs w in Finish r w'.

(** Running a body, [self] being what the decorated name is bound to. *)
Fixpoint run_body (self : list pyval → list (string * pyval) → M (fs := fs) pyval)
    (b : body) : M (fs := fs) pyval :=
  match b with
  | Finish r w => λ s, (r, set_world w s)
  | CallWrapper w args kwargs k =>
      λ s, let '(r, s') := self args kwargs (set_world w s) in
           run_body self (k r (st_world s')) s'
  end.

Variable retain_hash_fn : pyfun (fs := fs).
Variable return_copy : bool.
Variable diskcache_dir : pyval.
Variable function : rfun.
Variables function_module function_name : string.

(** Line 73 for such a function; the invocation is recorded when it
    ends, after the invocations it caused. *)
Definition rinvoke (self : list pyval → list (string * pyval) → M (fs := fs) pyval)
    (args : list pyval) (kwargs : list (string * pyval)) : M (fs := fs) pyval :=
  λ s, let '(r, s') := run_body self (function args kwargs (st_world s)) s in
       (r, log_call (args, kwargs, r) s').

(** Lines 68-75, with the computation of line 73 as a parameter. *)
Definition lookup_or_compute_by (compute : M (fs := fs) pyval)
    (sig hash_result : pyval) : M (fs := fs) pyval :=
  let* hit := is_hit sig hash_result in
  if hit then
    let* values := gets args_return_value_map in
    let* res := lift (dict_getitem values sig) in
    if return_copy then copy_copy res else ret res
  else
    let* res := compute in
    let* _ := store_entry sig hash_result res in
    ret res.

(** The closure [wrapper] around a function that may call it.  [depth]
    bounds how deep the calls through the wrapper may nest, as the
    recursion limit of the interpreter does; beyond it the call raises
    [RecursionError]. *)
Fixpoint rwrapper (depth : nat) (args : list pyval)
    (kwargs : list (string * pyval)) {struct depth} : M (fs := fs) pyval :=
  match depth with
  | O => raise RecursionError
  | S depth' =>
      let* hash_result := call retain_hash_fn args kwargs in
      let sig := call_signature function_module function_name args kwargs in
      let* hash_result := load_from_disk diskcache_dir sig hash_result in
      let* res :=
        lookup_or_compute_by (rinvoke (rwrapper depth') args kwargs)
          sig hash_result in
      let* _ := save_to_disk diskcache_dir sig hash_result res in
      ret res
  end.

(** From [s] to [s'] the record of invocations has only grown and no
    signature has lost its token or its value. *)
Definition grows (s s' : state (fs := fs)) : Prop :=
  (∃ l, calls s' = calls s ++ l) ∧
  (∀ k, is_Some (args_hash_result_map s !! k) →
        is_Some (args_hash_result_map s' !! k)) ∧
  (∀ k, is_Some (args_return_value_map s !! k) →
        is_Some (args_return_value_map s' !! k)).

End reentry.

(** ** Values as a caller sees them *)

(** The content of a value with the lists read from the heap, down to
    a given depth. *)
Unset Elimination Schemes.
Inductive frozen :=
| FNone
| FInt (z : Z)
| FStr (s : string)
| FTuple (items : list frozen)
| FList (items : list frozen)
| FDeeper.
Set Elimination Schemes.

Fixpoint freeze (depth : nat) (h : gmap loc (list pyval)) (v : pyval)
  : frozen :=
  match depth with
  | O => FDeeper
  | S n =>
      match v with
      | VNone => FNone
      | VInt z => FInt z
      | VStr s => FStr s
      | VTuple items => FTuple (map (freeze n h) items)
      | VList l => FList (map (freeze n h) (heap_get h l))
      end
  end.

(** What a call handed to its caller: the content of the result in the
    heap the call left. *)
Definition returned {fs : Type} (run : res pyval * state (fs := fs))
  : res frozen :=
  match run.1 with
  | inr v => Return (freeze 8 (heap (st_world run.2)) v)
  | inl e => Raise e
  end.

(** [lst.append(v)] on the list at [l], done by the caller. *)
Definition list_append {fs : Type} (l : loc) (v : pyval)
    (w : world (fs := fs)) : world :=
  World (<[l := heap_get (heap w) l ++ [v]]> (heap w)) (disk w).

(** ** A file system in memory and some wrapped functions *)

(** Files are a map from paths to contents; pickles of this toy library
    are never readable and its digests are the content itself. *)
Definition mem_fs : Type := gmap string string.

#[global] Instance mem_library : Library mem_fs := {|
  json_dumps_md5 := λ _ _ _, Return "d41d8cd9";
  format_str := λ _ v, match v with VStr s => s | _ => "" end;
  os_path_join := λ a b c, a +:+ "/" +:+ b +:+ "/" +:+ c;
  os_path_dirname := λ p, p;
  os_path_exists := λ d p, bool_decide (is_Some (d !! p));
  os_makedirs := λ d p, (Return tt, d);
  read_file := λ d p,
    match d !! p with Some c => Return c | None => Raise OSError end;
  write_file := λ d p c, (Return tt, <[p := c]> d);
  pickle_dumps := λ _ _, Return "";
  pickle_loads := λ h _, (Raise EOFError, h);
  sha256_hexdigest := λ data, data;
|}.

(** A function that returns a new list of the given items. *)
Definition new_list (items : list pyval) : pyfun (fs := mem_fs) :=
  λ _ _ w, let l := fresh (dom (heap w)) in
           (Return (VList l), World (<[l := items]> (heap w)) (disk w)).

(** A function that returns a new list holding a new list of [1]. *)
Definition new_nested : pyfun (fs := mem_fs) :=
  λ _ _ w, let inner := fresh (dom (heap w)) in
           let h1 := <[inner := [VInt 1]]> (heap w) in
           let outer := fresh (dom h1) in
           (Return (VList outer),
            World (<[outer := [VList inner]]> h1) (disk w)).

(** A function that always raises. *)
Definition always_raises : pyfun (fs := mem_fs) :=
  λ _ _ w, (Raise (UserError "boom"), w).

(** [def f(path): return open(path).read()] *)
Definition read_content : pyfun (fs := mem_fs) :=
  λ args _ w,
    match args with
    | [VStr path] =>
        match disk w !! path with
        | Some c => (Return (VStr c), w)
        | None => (Raise OSError, w)
        end
    | _ => (Raise TypeError, w)
    end.

(** [f(a=1, b=2)] and [f(b=2, a=1)] *)
Definition kwargs_ab : list (string * pyval) := [("a", VInt 1); ("b", VInt 2)].
Definition kwargs_ba : list (string * pyval) := [("b", VInt 2); ("a", VInt 1)].

(** The state of the test of tests.py after its first call: a wrapper
    made by [filename_cache()] around a function of the file, called on
    a file that holds [old]. *)
Definition file_wrapper : list pyval → list (string * pyval) → M pyval :=
  wrapper filename_cache_hash_fn true VNone read_content "m" "f".

Definition after_first_read : state (fs := mem_fs) :=
  (file_wrapper [VStr "a.txt"] []
     (initial_state (World ∅ {["a.txt" := "old"]}))).2.


(** A wrapper with the default parameters around [new_list], and the
    state after its first call. *)
Definition list_wrapper : list pyval → list (string * pyval) → M pyval :=
  wrapper default_retain_hash_fn true VNone (new_list [VInt 1; VInt 2])
          "m" "f".

Definition after_first_list : state (fs := mem_fs) :=
  (list_wrapper [VInt 5] [] (initial_state (World ∅ ∅))).2.

(** The same around [new_nested], and the state after two calls. *)
Definition nested_wrapper : list pyval → list (string * pyval) → M pyval :=
  wrapper default_retain_hash_fn true VNone new_nested "m" "f".

Definition after_nested_hit : state (fs := mem_fs) :=
  (nested_wrapper [] []
     (nested_wrapper [] [] (initial_state (World ∅ ∅))).2).2.

(** A wrapper with the default parameters around [always_raises], and
    the state after two calls. *)
Definition raising_wrapper : list pyval → list (string * pyval) → M pyval :=
  wrapper default_retain_hash_fn true VNone always_raises "m" "f".


(** A wrapper made by [filename_cache(diskcache_dir='/tmp/cache')]. *)
Definition disk_file_wrapper
  : list pyval → list (string * pyval) → M pyval :=
  wrapper filename_cache_hash_fn true (VStr "/tmp/cache") read_content
          "m" "f".

(** A disk that holds the value artifact of a record and no token
    artifact. *)
Definition value_artifact_only : mem_fs :=
  {["/tmp/cache/func_cache/m/f/d41d8cd9.result" := "pickled"]}.

(** Three recursive functions, decorated with the default parameters.

    [def f(n): return 0 if n <= 0 else f(n - 1) + 1] *)
Definition count_up : rfun (fs := mem_fs) :=
  λ args kwargs w,
    match args, kwargs with
    | [VInt n], [] =>
        if bool_decide (n ≤ 0)%Z then Finish (Return (VInt 0)) w
        else CallWrapper w [VInt (n - 1)] []
               (λ r w', match r with
                        | inr (VInt z) => Finish (Return (VInt (z + 1))) w'
                        | inr _ => Finish (Raise TypeError) w'
                        | inl e => Finish (Raise e) w'
                        end)
    | _, _ => Finish (Raise TypeError) w
    end.

(** [def f(n): if n <= 0: return 0; f(n - 1); raise Exception("boom")] *)
Definition fails_after_inner : rfun (fs := mem_fs) :=
  λ args kwargs w,
    match args, kwargs with
    | [VInt n], [] =>
        if bool_decide (n ≤ 0)%Z then Finish (Return (VInt 0)) w
        else CallWrapper w [VInt (n - 1)] []
               (λ r w', match r with
                        | inr _ => Finish (Raise (UserError "boom")) w'
                        | inl e => Finish (Raise e) w'
                        end)
    | _, _ => Finish (Raise TypeError) w
    end.

(** With a module-level list [flag] (the list at location 0):
    [def f(x): if not flag: flag.append(1); f(x); raise Exception("boom")]
    and [return 1] otherwise. *)
Definition retry_once : rfun (fs := mem_fs) :=
  λ args kwargs w,
    match args, kwargs with
    | [x], [] =>
        if bool_decide (heap_get (heap w) 0 = []) then
          CallWrapper (list_append 0 (VInt 1) w) [x] []
            (λ r w', match r with
                     | inr _ => Finish (Raise (UserError "boom")) w'
                     | inl e => Finish (Raise e) w'
                     end)
        else Finish (Return (VInt 1)) w
    | _, _ => Finish (Raise TypeError) w
    end.

(** The world in which [flag] is empty. *)
Definition flag_unset : world (fs := mem_fs) := World {[0 := []]} ∅.


(** The state after [f(0)] through the wrapper around [count_up]. *)
Definition after_count_up_zero : state (fs := mem_fs) :=
  (rwrapper default_retain_hash_fn true VNone count_up "m" "f" 10
     [VInt 0] [] (initial_state (World ∅ ∅))).2.

(** * Proofs *)

(** ** Equality *)

Lemma py_eq_refl fuel h v : py_eq fuel h v v = Return true.
Proof. destruct fuel; simpl; by rewrite decide_True. Qed.

Lemma py_eq_items_refl eq xs :
  (∀ x, eq x x = Return true) → py_eq_items eq xs xs = Return true.
Proof. intros Heq. induction xs as [|x xs IH]; simpl; [done|]. by rewrite Heq. Qed.

(** A list and a second list with the same items are equal. *)
Lemma py_eq_same_items fuel h l l' :
  heap_get h l' = heap_get h l →
  py_eq (S fuel) h (VList l) (VList l') = Return true.
Proof.
  intros Hl. simpl. case_decide; [done|]. rewrite Hl.
  rewrite decide_True by done. apply py_eq_items_refl, py_eq_refl.
Qed.

(** ** The disk helpers never get to the disk *)

#[global] Arguments _get_cache_path : simpl never.
#[global] Arguments _is_in_disk_cache : simpl never.
#[global] Arguments _save_to_disk_cache : simpl never.
#[global] Arguments _get_from_disk_cache : simpl never.
#[global] Arguments py_eq : simpl never.
#[global] Arguments recursion_limit : simpl never.
#[global] Arguments copy_copy : simpl never.
#[global] Arguments store_entry : simpl never.

Section disk_helpers.
Context {fs : Type} `{!Library fs}.
Implicit Types s : state (fs := fs).

Lemma _get_cache_path_two_args a b s :
  path_cache s !! [a; b] = None →
  _get_cache_path [a; b] s = (Raise TypeError, s).
Proof.
  intros Hnone. unfold _get_cache_path.
  destruct (forallb hashable [a; b]); [|done].
  unfold bind, gets. simpl. by rewrite Hnone.
Qed.

Lemma _is_in_disk_cache_two_args sig key s :
  path_cache s !! [sig; key] = None →
  _is_in_disk_cache [sig; key] s = (Raise TypeError, s).
Proof.
  intros Hnone. unfold _is_in_disk_cache, bind.
  by rewrite _get_cache_path_two_args.
Qed.

Lemma _save_to_disk_cache_three_args a b c s :
  _save_to_disk_cache [a; b; c] s = (Raise TypeError, s).
Proof. done. Qed.

Lemma _get_from_disk_cache_two_args a b s :
  _get_from_disk_cache [a; b] s = (Raise TypeError, s).
Proof. done. Qed.

Lemma global_name_json s : global_name "json" s = (Raise NameError, s).
Proof. done. Qed.

(** With the right number of arguments and a signature as the wrapper
    builds it, the body stops at [json.dumps]. *)
Lemma _get_cache_path_body_NameError dir m f args kwargs key s :
  _get_cache_path_body [dir; VTuple [m; f; args; kwargs]; key] s
  = (Raise NameError, s).
Proof. done. Qed.

End disk_helpers.

(** ** One call, step by step *)

Section wrapper_facts.
Context {fs : Type} `{!Library fs}.
Variable retain_hash_fn : pyfun (fs := fs).
Variable return_copy : bool.
Variable diskcache_dir : pyval.
Variable function : pyfun (fs := fs).
Variables function_module function_name : string.
Implicit Types s : state (fs := fs).
Implicit Types args : list pyval.
Implicit Types kwargs : list (string * pyval).

Lemma store_entry_hashable sig t v s :
  hashable sig = true →
  store_entry sig t v s =
  (Return tt,
   set_args_return_value_map (<[sig := v]> (args_return_value_map s))
     (set_args_hash_result_map (<[sig := t]> (args_hash_result_map s)) s)).
Proof.
  intros Hh. unfold store_entry, bind, gets, lift, modify, dict_setitem.
  simpl. by rewrite Hh.
Qed.

(** Lines 53-64 leave the state alone: they return the token unchanged,
    or stop at the call of [_is_in_disk_cache]. *)
Lemma load_from_disk_cases sig t s :
  path_cache s = ∅ →
  load_from_disk diskcache_dir sig t s = (Return t, s) ∨
  load_from_disk diskcache_dir sig t s = (Raise TypeError, s).
Proof.
  intros Hpc. unfold load_from_disk, bind, is_true, gets, lift. simpl.
  destruct (truthy _ _); [|by left].
  unfold dict_contains. destruct (hashable sig); [|by right].
  simpl. destruct (bool_decide _); simpl; [by left|].
  rewrite _is_in_disk_cache_two_args; [by right|].
  by rewrite Hpc, lookup_empty.
Qed.

Lemma load_from_disk_off sig t s :
  truthy (heap (st_world s)) diskcache_dir = false →
  load_from_disk diskcache_dir sig t s = (Return t, s).
Proof.
  intros Hoff. unfold load_from_disk, bind, is_true, gets. simpl.
  by rewrite Hoff.
Qed.

Lemma load_from_disk_on sig t s :
  truthy (heap (st_world s)) diskcache_dir = true →
  path_cache s = ∅ →
  args_return_value_map s !! sig = None →
  load_from_disk diskcache_dir sig t s = (Raise TypeError, s).
Proof.
  intros Hon Hpc Hnone. unfold load_from_disk, bind, is_true, gets, lift.
  simpl. rewrite Hon. unfold dict_contains.
  destruct (hashable sig); [|done]. simpl. rewrite Hnone.
  rewrite bool_decide_eq_false_2 by (by intros [? ?]). simpl.
  rewrite _is_in_disk_cache_two_args; [done|].
  by rewrite Hpc, lookup_empty.
Qed.

Lemma save_to_disk_cases sig t v s :
  path_cache s = ∅ →
  save_to_disk diskcache_dir sig t v s = (Return tt, s) ∨
  save_to_disk diskcache_dir sig t v s = (Raise TypeError, s).
Proof.
  intros Hpc. unfold save_to_disk, bind, is_true, gets. simpl.
  destruct (truthy _ _); [|by left].
  rewrite _is_in_disk_cache_two_args; [by right|].
  by rewrite Hpc, lookup_empty.
Qed.

Lemma save_to_disk_off sig t v s :
  truthy (heap (st_world s)) diskcache_dir = false →
  save_to_disk diskcache_dir sig t v s = (Return tt, s).
Proof.
  intros Hoff. unfold save_to_disk, bind, is_true, gets. simpl.
  by rewrite Hoff.
Qed.

(** Line 68 as one expression; it never changes the state. *)
Lemma is_hit_eq sig t s :
  is_hit sig t s =
  (if hashable sig then
     match args_return_value_map s !! sig with
     | None => Return false
     | Some _ =>
         match args_hash_result_map s !! sig with
         | None => Raise KeyError
         | Some t0 => py_eq recursion_limit (heap (st_world s)) t t0
         end
     end
   else Raise TypeError, s).
Proof.
  unfold is_hit, bind, gets, lift, dict_contains, dict_getitem. simpl.
  destruct (hashable sig); simpl; [|done].
  destruct (args_return_value_map s !! sig) as [v|]; simpl; [|done].
  destruct (args_hash_result_map s !! sig) as [t0|]; simpl; [|done].
  by destruct (py_eq _ _ _ _).
Qed.

(** A hit: the stored value, or a copy of it, and no invocation. *)
Lemma lookup_or_compute_hit args kwargs sig t t0 v s :
  hashable sig = true →
  args_return_value_map s !! sig = Some v →
  args_hash_result_map s !! sig = Some t0 →
  py_eq recursion_limit (heap (st_world s)) t t0 = Return true →
  lookup_or_compute return_copy function args kwargs sig t s =
  if return_copy then copy_copy v s else (Return v, s).
Proof.
  intros Hh Hv Ht Heq. unfold lookup_or_compute, bind.
  rewrite is_hit_eq, Hh, Hv, Ht, Heq. simpl.
  unfold gets, lift, dict_getitem. simpl. rewrite Hh, Hv.
  by destruct return_copy.
Qed.

(** A miss, the signature being absent or its token different: the
    function is invoked; its result is stored and returned, its
    exception is passed on and nothing is stored. *)
Lemma lookup_or_compute_miss args kwargs sig t s :
  hashable sig = true →
  (args_return_value_map s !! sig = None ∨
   ∃ t0, args_hash_result_map s !! sig = Some t0 ∧
         py_eq recursion_limit (heap (st_world s)) t t0 = Return false) →
  lookup_or_compute return_copy function args kwargs sig t s =
  let '(r, w) := function args kwargs (st_world s) in
  let s1 := log_call (args, kwargs, r) (set_world w s) in
  match r with
  | inl e => (Raise e, s1)
  | inr v => (Return v, stored sig t v s1)
  end.
Proof.
  intros Hh Hmiss. unfold lookup_or_compute, bind.
  rewrite is_hit_eq, Hh.
  assert (match args_return_value_map s !! sig with
          | Some _ =>
              match args_hash_result_map s !! sig with
              | Some t0 => py_eq recursion_limit (heap (st_world s)) t t0
              | None => Raise KeyError
              end
          | None => Return false
          end = Return false) as ->.
  { destruct Hmiss as [->|(t0 & -> & ->)]; [done|].
    by destruct (args_return_value_map s !! sig). }
  simpl. unfold invoke.
  destruct (function args kwargs (st_world s)) as [[e|v] w]; [done|].
  by rewrite store_entry_hashable.
Qed.

(** The three ways lines 68-75 can go. *)
Lemma lookup_or_compute_cases args kwargs sig t s :
  (∃ e, lookup_or_compute return_copy function args kwargs sig t s
        = (Raise e, s)) ∨
  (∃ v t0,
      hashable sig = true ∧
      args_return_value_map s !! sig = Some v ∧
      args_hash_result_map s !! sig = Some t0 ∧
      py_eq recursion_limit (heap (st_world s)) t t0 = Return true ∧
      lookup_or_compute return_copy function args kwargs sig t s
      = if return_copy then copy_copy v s else (Return v, s)) ∨
  (hashable sig = true ∧
   (args_return_value_map s !! sig = None ∨
    ∃ t0, args_hash_result_map s !! sig = Some t0 ∧
          py_eq recursion_limit (heap (st_world s)) t t0 = Return false) ∧
   lookup_or_compute return_copy function args kwargs sig t s
   = let '(r, w) := function args kwargs (st_world s) in
     let s1 := log_call (args, kwargs, r) (set_world w s) in
     match r with
     | inl e => (Raise e, s1)
     | inr v => (Return v, stored sig t v s1)
     end).
Proof.
  destruct (hashable sig) eqn:Hh.
  2:{ left. exists TypeError. unfold lookup_or_compute, bind.
      by rewrite is_hit_eq, Hh. }
  destruct (args_return_value_map s !! sig) as [v|] eqn:Hv.
  2:{ right; right. split; [done|]. split; [by left|].
      apply lookup_or_compute_miss; auto. }
  destruct (args_hash_result_map s !! sig) as [t0|] eqn:Ht.
  2:{ left. exists KeyError. unfold lookup_or_compute, bind.
      by rewrite is_hit_eq, Hh, Hv, Ht. }
  destruct (py_eq recursion_limit (heap (st_world s)) t t0) as [e|[]] eqn:Heq.
  - left. exists e. unfold lookup_or_compute, bind.
    by rewrite is_hit_eq, Hh, Hv, Ht, Heq.
  - right; left. exists v, t0. repeat (split; [done|]).
    by eapply lookup_or_compute_hit.
  - right; right. split; [done|]. split; [right; eauto|].
    apply lookup_or_compute_miss; eauto.
Qed.

(** [copy.copy] touches nothing but the heap, where it adds one list. *)
Lemma copy_copy_cases v s :
  copy_copy v s = (Return v, s) ∨
  ∃ l, v = VList l ∧
       let h := heap (st_world s) in
       copy_copy v s = (Return (VList (fresh (dom h))),
                        set_heap (<[fresh (dom h) := heap_get h l]> h) s).
Proof. destruct v; [by left..|]. right. by eexists. Qed.

(** Without a disk tier a call is the freshness function followed by
    lines 68-75. *)
Lemma wrapper_off args kwargs s :
  disk_tier_off diskcache_dir →
  wrapper retain_hash_fn return_copy diskcache_dir function
          function_module function_name args kwargs s =
  let '(r0, w0) := retain_hash_fn args kwargs (st_world s) in
  match r0 with
  | inl e => (Raise e, set_world w0 s)
  | inr t =>
      lookup_or_compute return_copy function args kwargs
        (call_signature function_module function_name args kwargs) t
        (set_world w0 s)
  end.
Proof.
  intros Hoff. unfold wrapper, bind, call.
  destruct (retain_hash_fn args kwargs (st_world s)) as [[e|t] w0]; [done|].
  rewrite load_from_disk_off by apply Hoff.
  destruct (lookup_or_compute _ _ _ _ _ _ _) as [[e|v] s1]; [done|].
  by rewrite save_to_disk_off by apply Hoff.
Qed.

(** With any configuration, as long as the table of [_get_cache_path]
    is empty: lines 53-64 and 77-79 can only stop the call. *)
Lemma wrapper_cases args kwargs s :
  path_cache s = ∅ →
  let sig := call_signature function_module function_name args kwargs in
  let run := wrapper retain_hash_fn return_copy diskcache_dir function
               function_module function_name args kwargs s in
  ∃ r0 w0, retain_hash_fn args kwargs (st_world s) = (r0, w0) ∧
  match r0 with
  | inl e => run = (Raise e, set_world w0 s)
  | inr t =>
      run = (Raise TypeError, set_world w0 s) ∨
      ∃ r1 s1,
        lookup_or_compute return_copy function args kwargs sig t
          (set_world w0 s) = (r1, s1) ∧
        (run = (r1, s1) ∨ run = (Raise TypeError, s1))
  end.
Proof.
  intros Hpc. cbv zeta. unfold wrapper, bind, call.
  set (sig := call_signature function_module function_name args kwargs).
  destruct (retain_hash_fn args kwargs (st_world s)) as [[e|t] w0];
    eexists _, _; (split; [done|]); [done|].
  destruct (load_from_disk_cases sig t (set_world w0 s) Hpc)
    as [-> | ->]; [|by left].
  right.
  destruct (lookup_or_compute _ _ _ _ _ _ _) as [r1 s1] eqn:Hloc.
  exists r1, s1. split; [done|].
  destruct r1 as [e|v]; [by left|].
  assert (path_cache s1 = ∅) as Hpc1.
  { destruct (lookup_or_compute_cases args kwargs sig t (set_world w0 s))
      as [(e & He) | [(v' & t0 & _ & _ & _ & _ & He) | (_ & _ & He)]];
      rewrite Hloc in He.
    - done.
    - destruct return_copy; [|by inversion He].
      destruct (copy_copy_cases v' (set_world w0 s)) as [Hc|(l & _ & Hc)];
        simpl in Hc; rewrite Hc in He; by inversion He.
    - destruct (function args kwargs _) as [[e|v'] w1]; by inversion He. }
  destruct (save_to_disk_cases sig t v s1 Hpc1) as [-> | ->];
    [by left|by right].
Qed.

(** ** Invariants *)

Lemma cache_inv_set_world w s : cache_inv s → cache_inv (set_world w s).
Proof. done. Qed.

Lemma cache_inv_log_call c s : cache_inv s → cache_inv (log_call c s).
Proof. done. Qed.

Lemma cache_inv_stored sig t v s :
  hashable sig = true → cache_inv s → cache_inv (stored sig t v s).
Proof.
  intros Hh (Hpc & Hops & Hdom & Hkeys). repeat split; simpl; try done.
  - rewrite !dom_insert_L. by rewrite Hdom.
  - intros k. rewrite dom_insert_L, elem_of_union, elem_of_singleton.
    intros [-> | Hk]; auto.
Qed.

Lemma lookup_or_compute_inv args kwargs sig t s :
  cache_inv s →
  cache_inv (lookup_or_compute return_copy function args kwargs sig t s).2.
Proof.
  intros Hinv.
  destruct (lookup_or_compute_cases args kwargs sig t s)
    as [(e & ->) | [(v & t0 & _ & _ & _ & _ & ->) | (Hh & _ & ->)]].
  - done.
  - destruct return_copy; [|done].
    by destruct (copy_copy_cases v s) as [-> | (l & _ & ->)].
  - destruct (function args kwargs (st_world s)) as [[e|v] w]; simpl.
    + by apply cache_inv_log_call, cache_inv_set_world.
    + by apply cache_inv_stored, cache_inv_log_call, cache_inv_set_world.
Qed.

Lemma wrapper_inv args kwargs s :
  cache_inv s →
  cache_inv (wrapper retain_hash_fn return_copy diskcache_dir function
               function_module function_name args kwargs s).2.
Proof.
  intros Hinv.
  destruct (wrapper_cases args kwargs s) as (r0 & w0 & _ & Hrun);
    [apply Hinv|].
  destruct r0 as [e|t].
  - rewrite Hrun. by apply cache_inv_set_world.
  - destruct Hrun as [-> | (r1 & s1 & Hloc & [-> | ->])]; simpl.
    + by apply cache_inv_set_world.
    + change s1 with (r1, s1).2. rewrite <- Hloc.
      by apply lookup_or_compute_inv, cache_inv_set_world.
    + change s1 with (@pair (res pyval) _ r1 s1).2. rewrite <- Hloc.
      by apply lookup_or_compute_inv, cache_inv_set_world.
Qed.

Lemma reachable_inv s :
  reachable retain_hash_fn return_copy diskcache_dir function
            function_module function_name s →
  cache_inv s.
Proof.
  intros [w Hrtc]. revert s Hrtc. apply rtc_ind_r; [done|].
  intros s1 s2 _ Hstep IH.
  destruct Hstep; [by apply wrapper_inv | by apply cache_inv_set_world].
Qed.

(** ** Hits and misses *)

Lemma heap_get_insert h l l' xs :
  heap_get (<[l' := xs]> h) l = if decide (l' = l) then xs else heap_get h l.
Proof. unfold heap_get. rewrite lookup_insert. by case_decide. Qed.






(** ** With a disk tier *)

(** With a disk tier and nothing in memory, a call is the freshness
    function followed by the [TypeError] of line 56. *)
Lemma wrapper_disk_on args kwargs s :
  disk_tier_on diskcache_dir →
  path_cache s = ∅ →
  args_return_value_map s = ∅ →
  wrapper retain_hash_fn return_copy diskcache_dir function
          function_module function_name args kwargs s =
  let '(r0, w0) := retain_hash_fn args kwargs (st_world s) in
  (match r0 with inl e => Raise e | inr _ => Raise TypeError end,
   set_world w0 s).
Proof.
  intros Hon Hpc Hempty. unfold wrapper, bind, call.
  destruct (retain_hash_fn args kwargs (st_world s)) as [[e|t] w0]; [done|].
  rewrite load_from_disk_on; [done|apply Hon|done|].
  simpl. by rewrite Hempty, lookup_empty.
Qed.

Lemma reachable_disk_on s :
  disk_tier_on diskcache_dir →
  reachable retain_hash_fn return_copy diskcache_dir function
            function_module function_name s →
  args_hash_result_map s = ∅ ∧ args_return_value_map s = ∅ ∧
  calls s = [] ∧ path_cache s = ∅ ∧ disk_ops s = [].
Proof.
  intros Hon [w Hrtc]. revert s Hrtc. apply rtc_ind_r; [done|].
  intros s1 s2 _ Hstep (Hh & Hv & Hc & Hpc & Hops).
  destruct Hstep as [args kwargs|w']; [|done].
  rewrite (wrapper_disk_on _ _ _ Hon Hpc Hv).
  by destruct (retain_hash_fn args kwargs (st_world s1)) as [[e|t] w0].
Qed.

(** C4, amended. With a disk tier configured no call returns: from any
    reachable state a call raises, and raises [TypeError] whenever the
    freshness function returns, because [_is_in_disk_cache] passes two
    arguments to [_get_cache_path], which takes three.  The wrapped
    function is never invoked, nothing is ever stored in memory and the
    cache performs no operation on the disk.  The other two defects on
    the way: [_save_to_disk_cache] takes four arguments and is called
    with three, and [_get_cache_path] refers to [json], which is not
    imported. *)
Theorem disk_tier_never_works args kwargs s :
  let run := wrapper retain_hash_fn return_copy diskcache_dir function
               function_module function_name args kwargs s in
  disk_tier_on diskcache_dir →
  reachable retain_hash_fn return_copy diskcache_dir function
            function_module function_name s →
  (∃ e, run.1 = Raise e) ∧
  (∀ t w, retain_hash_fn args kwargs (st_world s) = (Return t, w) →
          run = (Raise TypeError, set_world w s)) ∧
  calls run.2 = [] ∧ disk_ops run.2 = [] ∧
  args_hash_result_map run.2 = ∅ ∧ args_return_value_map run.2 = ∅ ∧
  (∀ sig key s0, path_cache s0 = ∅ →
     _is_in_disk_cache [sig; key] s0 = (Raise TypeError, s0)) ∧
  (∀ sig key value s0,
     _save_to_disk_cache [sig; key; value] s0 = (Raise TypeError, s0)) ∧
  (∀ dir m f a k key s0,
     _get_cache_path_body [dir; VTuple [m; f; a; k]; key] s0
     = (Raise NameError, s0)).
Proof.
  intros run Hon Hreach. subst run.
  destruct (reachable_disk_on s Hon Hreach) as (Hh & Hv & Hc & Hpc & Hops).
  rewrite (wrapper_disk_on _ _ _ Hon Hpc Hv).
  destruct (retain_hash_fn args kwargs (st_world s)) as [[e|t] w0]; simpl.
  - repeat split; eauto; try done.
    intros sig key s0 Hp. apply _is_in_disk_cache_two_args.
    by rewrite Hp, lookup_empty.
  - repeat split; eauto; try done.
    + by intros ? ? [= _ <-].
    + intros sig key s0 Hp. apply _is_in_disk_cache_two_args.
      by rewrite Hp, lookup_empty.
Qed.

End wrapper_facts.

(** ** The default freshness function *)

Section default_freshness.
Context {fs : Type} `{!Library fs}.
Variable return_copy : bool.
Variable diskcache_dir : pyval.
Variable function : pyfun (fs := fs).
Variables function_module function_name : string.
Implicit Types s : state (fs := fs).

Lemma call_signature_inj args kwargs args' kwargs' :
  call_signature function_module function_name args kwargs =
  call_signature function_module function_name args' kwargs' →
  args = args' ∧ kwargs = kwargs'.
Proof.
  unfold call_signature, kwargs_items. intros [= -> Hkw]. split; [done|].
  revert kwargs' Hkw.
  induction kwargs as [|[k v] kwargs IH]; intros [|[k' v'] kwargs'] Hkw;
    simpl in Hkw; try done.
  injection Hkw as -> -> Hkw. f_equal. by apply IH.
Qed.





(** C7, amended. Two calls have the same signature exactly when their
    positional arguments are the same and their keyword arguments are
    the same pairs in the same order. *)
Theorem signature_equality args kwargs args' kwargs' :
  call_signature function_module function_name args kwargs =
  call_signature function_module function_name args' kwargs'
  ↔ args = args' ∧ kwargs = kwargs'.
Proof.
  split; [apply call_signature_inj|]. by intros [-> ->].
Qed.

End default_freshness.

(** ** Copy on read *)

Section copy_on_read.
Context {fs : Type} `{!Library fs}.
Variable retain_hash_fn : pyfun (fs := fs).
Variable diskcache_dir : pyval.
Variable function : pyfun (fs := fs).
Variables function_module function_name : string.
Implicit Types s : state (fs := fs).

(** C6, amended. Copy isolation at the top level, without a disk tier
    and with [return_copy=True]: a hit on a cached list returns a new
    list object, different from the stored one and from every list
    allocated so far, with the same items; the stored instance stays in
    the cache; and after the caller has replaced the items of the list
    it received by any others, the next hit (its freshness function
    leaving the stored list alone) still returns a list with the items
    the stored list had. *)
Theorem copy_isolation_top_level args kwargs s l t0 t w0 :
  let sig := call_signature function_module function_name args kwargs in
  let wrapper' := wrapper retain_hash_fn true diskcache_dir function
                    function_module function_name args kwargs in
  disk_tier_off diskcache_dir →
  hashable sig = true →
  args_return_value_map s !! sig = Some (VList l) →
  args_hash_result_map s !! sig = Some t0 →
  retain_hash_fn args kwargs (st_world s) = (Return t, w0) →
  py_eq recursion_limit (heap w0) t t0 = Return true →
  l ∈ dom (heap w0) →
  ∃ l' s1,
    wrapper' s = (Return (VList l'), s1) ∧
    l' ≠ l ∧ (l' ∉ dom (heap w0)) ∧
    heap_get (heap (st_world s1)) l' = heap_get (heap w0) l ∧
    args_return_value_map s1 !! sig = Some (VList l) ∧
    ∀ items t' w1,
      let mutated := set_heap (<[l' := items]> (heap (st_world s1))) s1 in
      retain_hash_fn args kwargs (st_world mutated) = (Return t', w1) →
      heap_get (heap w1) l = heap_get (heap (st_world mutated)) l →
      py_eq recursion_limit (heap w1) t' t0 = Return true →
      ∃ l'' s2,
        wrapper' mutated = (Return (VList l''), s2) ∧
        heap_get (heap (st_world s2)) l'' = heap_get (heap w0) l.
Proof.
  intros sig wrapper' Hoff Hh Hv Ht Hfresh Heq Hl. subst wrapper'.
  set (l' := fresh (dom (heap w0))).
  assert (l' ∉ dom (heap w0)) as Hfresh_l' by apply is_fresh.
  assert (l' ≠ l) as Hne by (by intros ->).
  set (s1 := set_heap (<[l' := heap_get (heap w0) l]> (heap w0))
               (set_world w0 s)).
  exists l', s1. split.
  { rewrite (wrapper_off _ _ _ _ _ _ _ _ _ Hoff), Hfresh. fold sig.
    by rewrite (lookup_or_compute_hit true function args kwargs sig t t0
                  (VList l) (set_world w0 s) Hh Hv Ht Heq). }
  split; [done|]. split; [done|]. split.
  { simpl. rewrite heap_get_insert. by rewrite decide_True. }
  split; [done|].
  intros items t' w1 mutated Hfresh' Hkeep Heq'.
  set (l'' := fresh (dom (heap w1))).
  exists l'', (set_heap (<[l'' := heap_get (heap w1) l]> (heap w1))
                 (set_world w1 mutated)).
  split.
  { rewrite (wrapper_off _ _ _ _ _ _ _ _ _ Hoff), Hfresh'. fold sig.
    by rewrite (lookup_or_compute_hit true function args kwargs sig t' t0
                  (VList l) (set_world w1 mutated) Hh Hv Ht Heq'). }
  simpl. rewrite heap_get_insert, decide_True by done.
  rewrite Hkeep. simpl. rewrite !heap_get_insert.
  by rewrite !decide_False by done.
Qed.

End copy_on_read.

(** ** The claims on concrete runs *)

Lemma none_disk_tier_off : disk_tier_off VNone.
Proof. by intros h. Qed.

Lemma path_disk_tier_on : disk_tier_on (VStr "/tmp/cache").
Proof. by intros h. Qed.



(** C4 as stated fails when the freshness function itself raises: a
    wrapper made by [filename_cache(diskcache_dir='/tmp/cache')], called
    on a file that does not exist, raises the [OSError] of [open], not
    [TypeError]. *)
Lemma disk_tier_other_exception :
  disk_tier_on (VStr "/tmp/cache") ∧
  (disk_file_wrapper [VStr "missing.txt"] []
     (initial_state (World ∅ ∅))).1 = Raise OSError ∧
  (disk_file_wrapper [VStr "missing.txt"] []
     (initial_state (World ∅ ∅))).1 ≠ Raise TypeError.
Proof. split; [apply path_disk_tier_on|]. by split. Qed.

(** A call of [disk_file_wrapper] on a file that exists. *)
Lemma disk_tier_never_works_witness :
  let s := initial_state (World ∅ {["a.txt" := "old"]}) in
  let run := disk_file_wrapper [VStr "a.txt"] [] s in
  run = (Raise TypeError, s) ∧ calls run.2 = [] ∧ disk_ops run.2 = [].
Proof.
  intros s run.
  destruct (disk_tier_never_works filename_cache_hash_fn true
              (VStr "/tmp/cache") read_content "m" "f" [VStr "a.txt"] [] s)
    as (_ & Hrun & Hcalls & Hops & _).
  - apply path_disk_tier_on.
  - exists (World ∅ {["a.txt" := "old"]}). apply rtc_refl.
  - split; [|by split].
    apply (Hrun (VStr "old") (World ∅ {["a.txt" := "old"]})).
    reflexivity.
Defined.



(** C6 as stated fails twice over.  The first, computing call hands out
    the stored instance itself: after the caller appends to it, a hit
    returns the appended item too.  And a copy shares its items with the
    stored instance: after the caller appends to the list inside the copy
    it received, a hit returns that change too. *)
Lemma copy_is_shallow_and_late :
  (list_wrapper [VInt 5] [] (initial_state (World ∅ ∅))).1
  = Return (VList 0) ∧
  args_return_value_map after_first_list
  !! call_signature "m" "f" [VInt 5] [] = Some (VList 0) ∧
  returned (list_wrapper [VInt 5] [] after_first_list)
  = Return (FList [FInt 1; FInt 2]) ∧
  returned (list_wrapper [VInt 5] []
              (set_world (list_append 0 (VInt 99) (st_world after_first_list))
                         after_first_list))
  = Return (FList [FInt 1; FInt 2; FInt 99]) ∧
  returned (nested_wrapper [] [] after_nested_hit)
  = Return (FList [FList [FInt 1]]) ∧
  returned (nested_wrapper [] []
              (set_world (list_append 0 (VInt 99) (st_world after_nested_hit))
                         after_nested_hit))
  = Return (FList [FList [FInt 1; FInt 99]]).
Proof. repeat split; vm_compute; reflexivity. Qed.

(** Copy isolation on a hit of [list_wrapper]: the caller
    empties the copy it received at location 1; the next hit returns a
    list of [1] and [2] all the same. *)
Lemma copy_isolation_top_level_witness :
  ∃ l' s1,
    list_wrapper [VInt 5] [] after_first_list = (Return (VList l'), s1) ∧
    l' ≠ 0 ∧
    ∃ l'' s2,
      list_wrapper [VInt 5] []
        (set_heap (<[l' := []]> (heap (st_world s1))) s1)
      = (Return (VList l''), s2) ∧
      heap_get (heap (st_world s2)) l'' = [VInt 1; VInt 2].
Proof.
  destruct (copy_isolation_top_level default_retain_hash_fn VNone
              (new_list [VInt 1; VInt 2]) "m" "f" [VInt 5] []
              after_first_list 0 (VInt 0) (VInt 0)
              (st_world after_first_list))
    as (l' & s1 & Hrun & Hne & _ & _ & _ & Hnext).
  - apply none_disk_tier_off.
  - reflexivity.
  - vm_compute. reflexivity.
  - vm_compute. reflexivity.
  - reflexivity.
  - vm_compute. reflexivity.
  - apply elem_of_dom. vm_compute. eauto.
  - exists l', s1. split; [exact Hrun|]. split; [exact Hne|].
    destruct (Hnext [] (VInt 0)
                (st_world (set_heap (<[l' := []]> (heap (st_world s1))) s1)))
      as (l'' & s2 & Hrun2 & Hitems).
    + reflexivity.
    + reflexivity.
    + apply py_eq_refl.
    + exists l'', s2. split; [exact Hrun2|]. rewrite Hitems.
      vm_compute. reflexivity.
Defined.

(** C7 as stated fails: [f(a=1, b=2)] and [f(b=2, a=1)] pass the same
    mapping of keyword arguments and have different signatures. *)
Lemma keyword_order_changes_signature :
  (list_to_map kwargs_ab : gmap string pyval) = list_to_map kwargs_ba ∧
  call_signature "m" "f" [] kwargs_ab ≠ call_signature "m" "f" [] kwargs_ba.
Proof.
  split; [|done]. simpl. by apply insert_insert_ne.
Qed.

(** C3, on the code. A warm start: whatever the disk holds (a complete
    record with the same token or with another one), the first call
    through a wrapper with a disk tier, its freshness function returning
    [t], raises [TypeError] and leaves the state as it was: nothing is
    loaded, no token is compared, and the wrapped function is not
    invoked. *)
Theorem disk_warm_start_raises {fs : Type} `{!Library fs}
    (w : world (fs := fs)) (t : pyval) (function : pyfun (fs := fs))
    (args : list pyval) (kwargs : list (string * pyval)) :
  wrapper (λ _ _ w', (Return t, w')) true (VStr "/tmp/cache") function
          "m" "f" args kwargs (initial_state w)
  = (Raise TypeError, initial_state w).
Proof.
  rewrite wrapper_disk_on; [|apply path_disk_tier_on|done..].
  by destruct w.
Qed.

(** C5, on the code. A disk that holds a value artifact and no token
    artifact: the call raises [TypeError] to its caller, the wrapped
    function is not invoked and the cache does not read the disk. *)
Theorem partial_record_raises :
  let run := wrapper default_retain_hash_fn true (VStr "/tmp/cache")
               (new_list [VInt 1; VInt 2]) "m" "f" [VInt 5] []
               (initial_state (World ∅ value_artifact_only)) in
  run.1 = Raise TypeError ∧ calls run.2 = [] ∧ disk_ops run.2 = [].
Proof. by repeat split. Qed.

(** * Further properties of the module *)

(** ** Which calls can be cached *)

Section call_outcomes.
Context {fs : Type} `{!Library fs}.
Variable retain_hash_fn : pyfun (fs := fs).
Variable return_copy : bool.
Variable diskcache_dir : pyval.
Variable function : pyfun (fs := fs).
Variables function_module function_name : string.
Implicit Types s : state (fs := fs).
Implicit Types args : list pyval.
Implicit Types kwargs : list (string * pyval).

(** A signature is hashable when every positional argument and every
    value of a keyword argument is. *)
Lemma call_signature_hashable args kwargs :
  hashable (call_signature function_module function_name args kwargs)
  = forallb hashable args && forallb (λ kv, hashable kv.2) kwargs.
Proof.
  simpl. rewrite !andb_true_r. f_equal.
  induction kwargs as [|[k v] kwargs IH]; simpl; [done|].
  by rewrite andb_true_r, IH.
Qed.

(** X1. A call with an argument that cannot be hashed (a list, or a
    tuple that holds one, as a positional argument or as the value of a
    keyword argument) raises [TypeError] as soon as the freshness
    function has returned, whatever the configuration: the wrapped
    function is not invoked and nothing is stored. *)
Theorem unhashable_arguments_raise args kwargs s t w0 :
  retain_hash_fn args kwargs (st_world s) = (Return t, w0) →
  forallb hashable args && forallb (λ kv, hashable kv.2) kwargs = false →
  wrapper retain_hash_fn return_copy diskcache_dir function
          function_module function_name args kwargs s
  = (Raise TypeError, set_world w0 s).
Proof.
  intros Hfresh Hunhash. rewrite <- call_signature_hashable in Hunhash.
  unfold wrapper, bind, call. rewrite Hfresh.
  set (sig := call_signature function_module function_name args kwargs) in *.
  clearbody sig.
  assert (load_from_disk diskcache_dir sig t (set_world w0 s)
          = (Return t, set_world w0 s) ∨
          load_from_disk diskcache_dir sig t (set_world w0 s)
          = (Raise TypeError, set_world w0 s)) as [-> | ->]; [|..|done].
  { unfold load_from_disk, bind, is_true, gets, lift, dict_contains. simpl.
    rewrite Hunhash. destruct (truthy _ _); [by right|by left]. }
  unfold lookup_or_compute, bind. by rewrite is_hit_eq, Hunhash.
Qed.

(** X2. The errors of a call without a disk tier, in a reachable
    state: the exception is the one of the freshness function, or
    [TypeError] for arguments that cannot be hashed, or what comparing
    the new token with the stored one raised, or the exception of the
    wrapped function.  In particular line 68 never fails with a
    [KeyError] of its own: a signature with a value has a token. *)
Theorem wrapper_errors_classified args kwargs s e s' :
  let sig := call_signature function_module function_name args kwargs in
  disk_tier_off diskcache_dir →
  reachable retain_hash_fn return_copy diskcache_dir function
            function_module function_name s →
  wrapper retain_hash_fn return_copy diskcache_dir function
          function_module function_name args kwargs s = (Raise e, s') →
  (∃ w, retain_hash_fn args kwargs (st_world s) = (Raise e, w)) ∨
  ∃ t w, retain_hash_fn args kwargs (st_world s) = (Return t, w) ∧
    ((hashable sig = false ∧ e = TypeError) ∨
     (∃ t0, args_hash_result_map s !! sig = Some t0 ∧
            py_eq recursion_limit (heap w) t t0 = Raise e) ∨
     (∃ w', function args kwargs w = (Raise e, w'))).
Proof.
  intros sig Hoff Hreach.
  destruct (reachable_inv _ _ _ _ _ _ s Hreach) as (_ & _ & Hdom & _).
  rewrite (wrapper_off _ _ _ _ _ _ _ _ _ Hoff). fold sig.
  destruct (retain_hash_fn args kwargs (st_world s)) as [[e0|t] w0].
  { intros [= -> _]. left. by exists w0. }
  intros Hrun. right. exists t, w0. split; [done|].
  destruct (hashable sig) eqn:Hh.
  2:{ left. unfold lookup_or_compute, bind in Hrun.
      rewrite is_hit_eq, Hh in Hrun. by injection Hrun as <- _. }
  right.
  destruct (args_return_value_map s !! sig) as [v|] eqn:Hv.
  - assert (is_Some (args_hash_result_map s !! sig)) as [t0 Ht0].
    { apply elem_of_dom. rewrite Hdom. apply elem_of_dom. eauto. }
    destruct (py_eq recursion_limit (heap w0) t t0) as [e1|[]] eqn:Heq.
    + left. exists t0. split; [done|].
      unfold lookup_or_compute, bind in Hrun.
      rewrite is_hit_eq, Hh in Hrun. simpl in Hrun.
      rewrite Hv, Ht0, Heq in Hrun. by injection Hrun as <- _.
    + rewrite (lookup_or_compute_hit return_copy function args kwargs sig
                 t t0 v (set_world w0 s) Hh Hv Ht0 Heq) in Hrun.
      destruct return_copy; [|done].
      by destruct (copy_copy_cases v (set_world w0 s))
        as [Hc | (l & _ & Hc)]; simpl in Hc; rewrite Hc in Hrun.
    + right. rewrite lookup_or_compute_miss in Hrun
        by (done || right; eauto).
      simpl in Hrun.
      destruct (function args kwargs w0) as [[e1|v1] w1]; [|done].
      injection Hrun as <- _. by exists w1.
  - right. rewrite lookup_or_compute_miss in Hrun by (done || by left).
    simpl in Hrun.
    destruct (function args kwargs w0) as [[e1|v1] w1]; [|done].
    injection Hrun as <- _. by exists w1.
Qed.

(** X5. Without a copy the caller shares the cached object: on a hit
    without a disk tier, when [return_copy] is false or the stored value
    is not a list, the call returns the stored value itself and the
    wrapper changes nothing (the state is the one the freshness function
    left). *)
Theorem hit_returns_stored_object args kwargs s v t0 t w0 :
  let sig := call_signature function_module function_name args kwargs in
  disk_tier_off diskcache_dir →
  hashable sig = true →
  args_return_value_map s !! sig = Some v →
  args_hash_result_map s !! sig = Some t0 →
  retain_hash_fn args kwargs (st_world s) = (Return t, w0) →
  py_eq recursion_limit (heap w0) t t0 = Return true →
  return_copy = false ∨ (∀ l, v ≠ VList l) →
  wrapper retain_hash_fn return_copy diskcache_dir function
          function_module function_name args kwargs s
  = (Return v, set_world w0 s).
Proof.
  intros sig Hoff Hh Hv Ht Hfresh Heq Hshare.
  rewrite (wrapper_off _ _ _ _ _ _ _ _ _ Hoff), Hfresh. fold sig.
  rewrite (lookup_or_compute_hit return_copy function args kwargs sig
             t t0 v (set_world w0 s) Hh Hv Ht Heq).
  destruct Hshare as [-> | Hnl]; [done|].
  destruct return_copy; [|done].
  destruct v as [| | | |l]; try done. by destruct (Hnl l).
Qed.

End call_outcomes.

(** ** The disk helpers called on their own *)

Section helper_calls.
Context {fs : Type} `{!Library fs}.
Implicit Types s : state (fs := fs).

Lemma unpack4_state v s : (unpack4 v s).2 = s.
Proof.
  destruct v as [| |str|items|l]; try done.
  - by destruct str as [|a [|b [|c [|d [|]]]]].
  - by destruct items as [|a [|b [|c [|d [|]]]]].
  - unfold unpack4, bind, gets. simpl.
    by destruct (heap_get _ l) as [|a [|b [|c [|d [|]]]]].
Qed.

Lemma _get_cache_path_body_raises args s :
  ∃ e, _get_cache_path_body args s = (Raise e, s).
Proof.
  destruct args as [|dir [|sig [|key [|]]]]; try by eexists.
  unfold _get_cache_path_body, bind.
  pose proof (unpack4_state sig s) as Hs.
  destruct (unpack4 sig s) as [[e|[[[m f] a] k]] s1]; simpl in Hs; subst s1.
  - by eexists.
  - rewrite global_name_json. by eexists.
Qed.

Lemma _get_cache_path_raises args s :
  path_cache s = ∅ → ∃ e, _get_cache_path args s = (Raise e, s).
Proof.
  intros Hpc. unfold _get_cache_path.
  destruct (forallb hashable args); [|by eexists].
  unfold bind, gets. simpl. rewrite Hpc, lookup_empty.
  destruct (_get_cache_path_body_raises args s) as [e ->]. by eexists.
Qed.

(** X6. While the table of [_get_cache_path] is empty, no call of any
    of the four disk helpers returns, whatever its arguments and however
    many: each raises and leaves the state as it was, so that no
    directory is made, no file is read or written, and the table stays
    empty. *)
Theorem disk_helpers_never_return (args : list pyval) s :
  path_cache s = ∅ →
  (∃ e, _get_cache_path args s = (Raise e, s)) ∧
  (∃ e, _save_to_disk_cache args s = (Raise e, s)) ∧
  (∃ e, _get_from_disk_cache args s = (Raise e, s)) ∧
  (∃ e, _is_in_disk_cache args s = (Raise e, s)).
Proof.
  intros Hpc. split; [by apply _get_cache_path_raises|]. repeat split.
  - destruct args as [|a [|b [|c [|d [|]]]]]; try by eexists.
    unfold _save_to_disk_cache, bind.
    destruct (_get_cache_path_raises [a; b; c] s Hpc) as [e ->].
    by eexists.
  - destruct args as [|a [|b [|c [|]]]]; try by eexists.
    unfold _get_from_disk_cache, bind.
    destruct (_get_cache_path_raises [a; b; c] s Hpc) as [e ->].
    by eexists.
  - destruct args as [|a [|b [|]]]; try by eexists.
    unfold _is_in_disk_cache, bind.
    destruct (_get_cache_path_raises [a; b] s Hpc) as [e ->].
    by eexists.
Qed.

(** X7. The helpers called as their definitions expect, with a cache
    directory, a signature as the wrapper builds it and a key, all
    hashable: [_get_cache_path], [_save_to_disk_cache] and
    [_get_from_disk_cache] raise [NameError], for [json] is not
    imported; no path is computed and the disk is not touched. *)
Theorem helpers_stop_at_json dir m n args kwargs key value s :
  let sig := call_signature m n args kwargs in
  path_cache s = ∅ →
  hashable dir = true → hashable sig = true → hashable key = true →
  _get_cache_path [dir; sig; key] s = (Raise NameError, s) ∧
  _save_to_disk_cache [dir; sig; key; value] s = (Raise NameError, s) ∧
  _get_from_disk_cache [dir; sig; key] s = (Raise NameError, s).
Proof.
  intros sig Hpc Hd Hs Hk.
  assert (_get_cache_path [dir; sig; key] s = (Raise NameError, s)) as Hp.
  { unfold _get_cache_path.
    replace (forallb hashable [dir; sig; key]) with true
      by (cbn [forallb]; by rewrite Hd, Hs, Hk).
    unfold bind, gets. simpl. by rewrite Hpc, lookup_empty. }
  split; [done|].
  unfold _save_to_disk_cache, _get_from_disk_cache, bind. by rewrite Hp.
Qed.

(** ** The freshness function of [filename_cache] *)

Lemma list_find_filename_None (kwargs : list (string * pyval)) :
  "filename" ∉ map fst kwargs →
  list_find (λ kv : string * pyval, kv.1 = "filename") kwargs = None.
Proof.
  induction kwargs as [|[k v] kwargs IH]; simpl; [done|].
  intros Hnot. apply not_elem_of_cons in Hnot as [Hk Hrest].
  rewrite decide_False by (simpl; congruence).
  by rewrite IH.
Qed.

(** X8. [filename_cache_hash_fn] changes nothing, and its outcome is
    decided by the content of the file named by its first argument:
    with the same content (or the same failure to read) it is the same
    in two worlds, whatever the other arguments. *)
Theorem file_token_depends_on_content path rest rest' kwargs kwargs'
    (w w' : world (fs := fs)) :
  "filename" ∉ map fst kwargs →
  "filename" ∉ map fst kwargs' →
  read_file (disk w) path = read_file (disk w') path →
  (filename_cache_hash_fn (VStr path :: rest) kwargs w).1
  = (filename_cache_hash_fn (VStr path :: rest') kwargs' w').1 ∧
  (filename_cache_hash_fn (VStr path :: rest) kwargs w).2 = w.
Proof.
  intros Hk Hk' Hread. unfold filename_cache_hash_fn.
  rewrite !bool_decide_eq_false_2 by done. rewrite Hread.
  by destruct (read_file (disk w') path).
Qed.

(** X9. How [filename_cache_hash_fn] takes its [filename]: with no
    positional argument and no keyword [filename], or with a positional
    argument and a keyword [filename], the call is a [TypeError]; and a
    file named by keyword gives what the same file named by position
    gives. *)
Theorem file_token_binding args kwargs (w : world (fs := fs)) :
  (args = [] ∧ "filename" ∉ map fst kwargs →
   filename_cache_hash_fn args kwargs w = (Raise TypeError, w)) ∧
  (args ≠ [] ∧ "filename" ∈ map fst kwargs →
   filename_cache_hash_fn args kwargs w = (Raise TypeError, w)) ∧
  (∀ before v after,
     args = [] →
     kwargs = before ++ ("filename", v) :: after →
     "filename" ∉ map fst before →
     filename_cache_hash_fn args kwargs w
     = filename_cache_hash_fn [v] [] w).
Proof.
  repeat split.
  - intros [-> Hnot]. unfold filename_cache_hash_fn.
    by rewrite list_find_filename_None.
  - intros [Hne Hin]. unfold filename_cache_hash_fn.
    destruct args as [|a args]; [done|].
    by rewrite bool_decide_eq_true_2.
  - intros before v after -> -> Hnot. unfold filename_cache_hash_fn.
    assert (list_find (λ kv : string * pyval, kv.1 = "filename")
              (before ++ ("filename", v) :: after)
            = Some (length before, ("filename", v))) as ->; [|done].
    apply list_find_Some. split; [by apply list_lookup_middle|].
    split; [done|]. intros j [k y] Hj Hlt Hk. simpl in Hk. subst k.
    rewrite lookup_app_l in Hj by done.
    apply Hnot. change "filename" with (fst ("filename", y)).
    apply list_elem_of_fmap_2. by eapply list_elem_of_lookup_2.
Qed.

End helper_calls.

(** ** Caching on the content of a file *)

Section file_cache.
Context {fs : Type} `{!Library fs}.
Variable return_copy : option bool.
Variable function : pyfun (fs := fs).
Variables function_module function_name : string.
Implicit Types s : state (fs := fs).


Lemma file_token path rest kwargs (w : world (fs := fs)) data :
  "filename" ∉ map fst kwargs →
  read_file (disk w) path = Return data →
  filename_cache_hash_fn (VStr path :: rest) kwargs w
  = (Return (VStr (sha256_hexdigest data)), w).
Proof.
  intros Hk Hread. unfold filename_cache_hash_fn.
  by rewrite bool_decide_eq_false_2, Hread.
Qed.

(** A hit on an unchanged file. *)
Lemma file_hit_effect path rest kwargs s v data :
  let args := VStr path :: rest in
  let sig := call_signature function_module function_name args kwargs in
  let run := filename_cache None return_copy None function
               function_module function_name args kwargs s in
  "filename" ∉ map fst kwargs →
  hashable sig = true →
  args_return_value_map s !! sig = Some v →
  args_hash_result_map s !! sig = Some (VStr (sha256_hexdigest data)) →
  read_file (disk (st_world s)) path = Return data →
  calls run.2 = calls s ∧
  args_hash_result_map run.2 = args_hash_result_map s ∧
  args_return_value_map run.2 = args_return_value_map s ∧
  ∃ r, run.1 = Return r ∧
       py_eq recursion_limit (heap (st_world run.2)) v r = Return true.
Proof.
  intros args sig run Hk Hh Hv Ht Hread. subst run.
  pose proof (file_token path rest kwargs (st_world s) data Hk Hread)
    as Hfresh. fold args in Hfresh.
  unfold filename_cache, cache. simpl.
  rewrite wrapper_off by (by intros h). rewrite Hfresh. fold sig.
  rewrite (lookup_or_compute_hit (default true return_copy) function args
             kwargs sig _ _ v (set_world (st_world s) s) Hh Hv Ht
             (py_eq_refl _ _ _)).
  destruct (default true return_copy).
  - destruct (copy_copy_cases v (set_world (st_world s) s))
      as [-> | (l & -> & ->)]; simpl.
    + repeat split; try done. eexists. split; [done|]. apply py_eq_refl.
    + repeat split; try done. eexists. split; [done|].
      change recursion_limit with (S 999). apply py_eq_same_items.
      rewrite !heap_get_insert, decide_True by done. by case_decide.
  - simpl. repeat split; try done. eexists. split; [done|].
    apply py_eq_refl.
Qed.


(** X10. A wrapper made by [filename_cache()], called on a file whose
    digest is the token stored for the signature: the wrapped function
    is not invoked, the dictionaries are not changed, and the call
    returns a value equal to the stored one. *)
Theorem unchanged_file_hits path rest kwargs s v data :
  let args := VStr path :: rest in
  let sig := call_signature function_module function_name args kwargs in
  let run := filename_cache None return_copy None function
               function_module function_name args kwargs s in
  "filename" ∉ map fst kwargs →
  hashable sig = true →
  args_return_value_map s !! sig = Some v →
  args_hash_result_map s !! sig = Some (VStr (sha256_hexdigest data)) →
  read_file (disk (st_world s)) path = Return data →
  calls run.2 = calls s ∧
  args_hash_result_map run.2 = args_hash_result_map s ∧
  args_return_value_map run.2 = args_return_value_map s ∧
  ∃ r, run.1 = Return r ∧
       py_eq recursion_limit (heap (st_world run.2)) v r = Return true.
Proof. apply file_hit_effect. Qed.



End file_cache.

(** ** The further properties on concrete runs *)

(** A list as the argument of [list_wrapper]. *)
Lemma unhashable_arguments_raise_witness :
  list_wrapper [VList 0] [] (initial_state (World ∅ ∅))
  = (Raise TypeError, set_world (World ∅ ∅) (initial_state (World ∅ ∅))).
Proof.
  apply (unhashable_arguments_raise default_retain_hash_fn true VNone
           (new_list [VInt 1; VInt 2]) "m" "f" [VList 0] []
           (initial_state (World ∅ ∅)) (VInt 0) (World ∅ ∅)).
  - reflexivity.
  - reflexivity.
Defined.

(** The error of a call of [raising_wrapper] is the one of the wrapped
    function. *)
Lemma wrapper_errors_classified_witness :
  let s := initial_state (World ∅ ∅) in
  let sig := call_signature "m" "f" [] [] in
  (∃ w, default_retain_hash_fn [] [] (st_world s)
        = (Raise (UserError "boom"), w)) ∨
  ∃ t w, default_retain_hash_fn [] [] (st_world s) = (Return t, w) ∧
    ((hashable sig = false ∧ UserError "boom" = TypeError) ∨
     (∃ t0, args_hash_result_map s !! sig = Some t0 ∧
            py_eq recursion_limit (heap w) t t0
            = Raise (UserError "boom")) ∨
     (∃ w', always_raises [] [] w = (Raise (UserError "boom"), w'))).
Proof.
  apply (wrapper_errors_classified default_retain_hash_fn true VNone
           always_raises "m" "f" [] [] (initial_state (World ∅ ∅))
           (UserError "boom")
           (raising_wrapper [] [] (initial_state (World ∅ ∅))).2).
  - by intros h.
  - exists (World ∅ ∅). apply rtc_refl.
  - reflexivity.
Defined.

(** A hit of [file_wrapper] returns the stored string itself. *)
Lemma hit_returns_stored_object_witness :
  file_wrapper [VStr "a.txt"] [] after_first_read
  = (Return (VStr "old"),
     set_world (st_world after_first_read) after_first_read).
Proof.
  apply (hit_returns_stored_object filename_cache_hash_fn true VNone
           read_content "m" "f" [VStr "a.txt"] [] after_first_read
           (VStr "old") (VStr "old") (VStr "old")
           (st_world after_first_read)).
  - by intros h.
  - reflexivity.
  - vm_compute. reflexivity.
  - vm_compute. reflexivity.
  - vm_compute. reflexivity.
  - apply py_eq_refl.
  - by right.
Defined.

(** The helpers called with two arguments in the state a wrapper
    starts in. *)
Lemma disk_helpers_never_return_witness :
  let args := [call_signature "m" "f" [VInt 5] []; VStr "result"] in
  let s := initial_state (fs := mem_fs) (World ∅ ∅) in
  (∃ e, _get_cache_path args s = (Raise e, s)) ∧
  (∃ e, _save_to_disk_cache args s = (Raise e, s)) ∧
  (∃ e, _get_from_disk_cache args s = (Raise e, s)) ∧
  (∃ e, _is_in_disk_cache args s = (Raise e, s)).
Proof.
  intros args s. apply (disk_helpers_never_return args s). reflexivity.
Defined.

(** The helpers called as their definitions expect. *)
Lemma helpers_stop_at_json_witness :
  let sig := call_signature "m" "f" [VInt 5] [] in
  let s := initial_state (fs := mem_fs) (World ∅ ∅) in
  _get_cache_path [VStr "/tmp/cache"; sig; VStr "result"] s
  = (Raise NameError, s) ∧
  _save_to_disk_cache [VStr "/tmp/cache"; sig; VStr "result"; VInt 10] s
  = (Raise NameError, s) ∧
  _get_from_disk_cache [VStr "/tmp/cache"; sig; VStr "result"] s
  = (Raise NameError, s).
Proof.
  apply (helpers_stop_at_json (VStr "/tmp/cache") "m" "f" [VInt 5] []
           (VStr "result") (VInt 10)
           (initial_state (fs := mem_fs) (World ∅ ∅)));
    reflexivity.
Defined.

(** The same file in two different worlds, with different other
    arguments. *)
Lemma file_token_depends_on_content_witness :
  let w : world (fs := mem_fs) := World ∅ {["a.txt" := "old"]} in
  let w' : world (fs := mem_fs) :=
    World {[0 := [VInt 1]]} (<["b.txt" := "other"]> {["a.txt" := "old"]}) in
  (filename_cache_hash_fn [VStr "a.txt"] [] w).1
  = (filename_cache_hash_fn [VStr "a.txt"; VInt 7] [("mode", VInt 1)] w').1 ∧
  (filename_cache_hash_fn [VStr "a.txt"] [] w).2 = w.
Proof.
  intros w w'.
  apply (file_token_depends_on_content "a.txt" [] [VInt 7] []
           [("mode", VInt 1)] w w').
  - apply not_elem_of_nil.
  - by intros [?|?%elem_of_nil]%elem_of_cons.
  - reflexivity.
Defined.

(** The file named by keyword, after another keyword argument. *)
Lemma file_token_binding_witness :
  let w : world (fs := mem_fs) := World ∅ {["a.txt" := "old"]} in
  filename_cache_hash_fn [] [] w = (Raise TypeError, w) ∧
  filename_cache_hash_fn [VStr "a.txt"] [("filename", VStr "a.txt")] w
  = (Raise TypeError, w) ∧
  filename_cache_hash_fn [] [("mode", VInt 1); ("filename", VStr "a.txt")] w
  = filename_cache_hash_fn [VStr "a.txt"] [] w.
Proof.
  intros w. split; [|split].
  - destruct (file_token_binding [] [] w) as (Hnone & _ & _).
    apply Hnone. split; [done|apply not_elem_of_nil].
  - destruct (file_token_binding [VStr "a.txt"]
                [("filename", VStr "a.txt")] w) as (_ & Hboth & _).
    apply Hboth. split; [done|]. apply elem_of_cons. by left.
  - destruct (file_token_binding []
                [("mode", VInt 1); ("filename", VStr "a.txt")] w)
      as (_ & _ & Hkw).
    apply (Hkw [("mode", VInt 1)] (VStr "a.txt") []); [done..|].
    by intros [?|?%elem_of_nil]%elem_of_cons.
Defined.

(** The second call of the test of tests.py: the file is unchanged. *)
Lemma unchanged_file_hits_witness :
  let run := filename_cache None None None read_content "m" "f"
               [VStr "a.txt"] [] after_first_read in
  calls run.2 = calls after_first_read ∧
  args_hash_result_map run.2 = args_hash_result_map after_first_read ∧
  args_return_value_map run.2 = args_return_value_map after_first_read ∧
  ∃ r, run.1 = Return r ∧
       py_eq recursion_limit (heap (st_world run.2)) (VStr "old") r
       = Return true.
Proof.
  apply (unchanged_file_hits None read_content "m" "f" "a.txt" [] []
           after_first_read (VStr "old") "old").
  - apply not_elem_of_nil.
  - reflexivity.
  - vm_compute. reflexivity.
  - vm_compute. reflexivity.
  - vm_compute. reflexivity.
Defined.



(** * Wrapped functions that call the wrapper *)

#[global] Arguments rwrapper : simpl never.

Section reentry_facts.
Context {fs : Type} `{!Library fs}.
Variable retain_hash_fn : pyfun (fs := fs).
Variable return_copy : bool.
Variable diskcache_dir : pyval.
Variable function : rfun (fs := fs).
Variables function_module function_name : string.
Implicit Types s : state (fs := fs).
Implicit Types args : list pyval.
Implicit Types kwargs : list (string * pyval).
Implicit Types compute : M (fs := fs) pyval.

Lemma lookup_or_compute_by_hit compute sig t t0 v s :
  hashable sig = true →
  args_return_value_map s !! sig = Some v →
  args_hash_result_map s !! sig = Some t0 →
  py_eq recursion_limit (heap (st_world s)) t t0 = Return true →
  lookup_or_compute_by return_copy compute sig t s =
  if return_copy then copy_copy v s else (Return v, s).
Proof.
  intros Hh Hv Ht Heq. unfold lookup_or_compute_by, bind.
  rewrite is_hit_eq, Hh, Hv, Ht, Heq. simpl.
  unfold gets, lift, dict_getitem. simpl. rewrite Hh, Hv.
  by destruct return_copy.
Qed.

Lemma lookup_or_compute_by_miss compute sig t s :
  hashable sig = true →
  (args_return_value_map s !! sig = None ∨
   ∃ t0, args_hash_result_map s !! sig = Some t0 ∧
         py_eq recursion_limit (heap (st_world s)) t t0 = Return false) →
  lookup_or_compute_by return_copy compute sig t s =
  let '(r, s1) := compute s in
  match r with
  | inl e => (Raise e, s1)
  | inr v => (Return v, stored sig t v s1)
  end.
Proof.
  intros Hh Hmiss. unfold lookup_or_compute_by, bind.
  rewrite is_hit_eq, Hh.
  assert (match args_return_value_map s !! sig with
          | Some _ =>
              match args_hash_result_map s !! sig with
              | Some t0 => py_eq recursion_limit (heap (st_world s)) t t0
              | None => Raise KeyError
              end
          | None => Return false
          end = Return false) as ->.
  { destruct Hmiss as [->|(t0 & -> & ->)]; [done|].
    by destruct (args_return_value_map s !! sig). }
  simpl. destruct (compute s) as [[e|v] s1]; [done|].
  by rewrite store_entry_hashable.
Qed.

(** The three ways lines 68-75 can go, whatever line 73 runs. *)
Lemma lookup_or_compute_by_cases compute sig t s :
  (∃ e, lookup_or_compute_by return_copy compute sig t s = (Raise e, s)) ∨
  (∃ v, lookup_or_compute_by return_copy compute sig t s
        = if return_copy then copy_copy v s else (Return v, s)) ∨
  (hashable sig = true ∧
   lookup_or_compute_by return_copy compute sig t s
   = let '(r, s1) := compute s in
     match r with
     | inl e => (Raise e, s1)
     | inr v => (Return v, stored sig t v s1)
     end).
Proof.
  destruct (hashable sig) eqn:Hh.
  2:{ left. exists TypeError. unfold lookup_or_compute_by, bind.
      by rewrite is_hit_eq, Hh. }
  destruct (args_return_value_map s !! sig) as [v|] eqn:Hv.
  2:{ right; right. split; [done|].
      apply lookup_or_compute_by_miss; auto. }
  destruct (args_hash_result_map s !! sig) as [t0|] eqn:Ht.
  2:{ left. exists KeyError. unfold lookup_or_compute_by, bind.
      by rewrite is_hit_eq, Hh, Hv, Ht. }
  destruct (py_eq recursion_limit (heap (st_world s)) t t0) as [e|[]] eqn:Heq.
  - left. exists e. unfold lookup_or_compute_by, bind.
    by rewrite is_hit_eq, Hh, Hv, Ht, Heq.
  - right; left. exists v. by eapply lookup_or_compute_by_hit.
  - right; right. split; [done|].
    apply lookup_or_compute_by_miss; eauto.
Qed.

Lemma rwrapper_S (f : rfun (fs := fs)) depth args kwargs :
  rwrapper retain_hash_fn return_copy diskcache_dir f
           function_module function_name (S depth) args kwargs =
  (let* hash_result := call retain_hash_fn args kwargs in
   let sig := call_signature function_module function_name args kwargs in
   let* hash_result := load_from_disk diskcache_dir sig hash_result in
   let* res :=
     lookup_or_compute_by return_copy
       (rinvoke f
          (rwrapper retain_hash_fn return_copy diskcache_dir f
                    function_module function_name depth) args kwargs)
       sig hash_result in
   let* _ := save_to_disk diskcache_dir sig hash_result res in
   ret res).
Proof. reflexivity. Qed.

(** Without a disk tier a call is the freshness function followed by
    lines 68-75. *)
Lemma rwrapper_off depth args kwargs s :
  disk_tier_off diskcache_dir →
  rwrapper retain_hash_fn return_copy diskcache_dir function
           function_module function_name (S depth) args kwargs s =
  let '(r0, w0) := retain_hash_fn args kwargs (st_world s) in
  match r0 with
  | inl e => (Raise e, set_world w0 s)
  | inr t =>
      lookup_or_compute_by return_copy
        (rinvoke function
           (rwrapper retain_hash_fn return_copy diskcache_dir function
                     function_module function_name depth) args kwargs)
        (call_signature function_module function_name args kwargs) t
        (set_world w0 s)
  end.
Proof.
  intros Hoff. rewrite rwrapper_S. unfold bind, call.
  destruct (retain_hash_fn args kwargs (st_world s)) as [[e|t] w0]; [done|].
  rewrite load_from_disk_off by apply Hoff.
  destruct (lookup_or_compute_by _ _ _ _ _) as [[e|v] s1]; [done|].
  by rewrite save_to_disk_off by apply Hoff.
Qed.

(** For a function that makes no call through the wrapper, this is the
    wrapper above, whatever the depth allowed. *)
Lemma rwrapper_of_pyfun (f : pyfun (fs := fs)) depth args kwargs s :
  rwrapper retain_hash_fn return_copy diskcache_dir (of_pyfun f)
           function_module function_name (S depth) args kwargs s
  = wrapper retain_hash_fn return_copy diskcache_dir f
            function_module function_name args kwargs s.
Proof.
  rewrite rwrapper_S. unfold wrapper, bind.
  destruct (call retain_hash_fn args kwargs s) as [[e|t] s0]; [done|].
  destruct (load_from_disk _ _ _ _) as [[e|t'] s1]; [done|].
  assert (lookup_or_compute_by return_copy
            (rinvoke (of_pyfun f)
               (rwrapper retain_hash_fn return_copy diskcache_dir
                  (of_pyfun f) function_module function_name depth)
               args kwargs)
            (call_signature function_module function_name args kwargs) t' s1
          = lookup_or_compute return_copy f args kwargs
              (call_signature function_module function_name args kwargs)
              t' s1) as ->; [|done].
  unfold lookup_or_compute_by, lookup_or_compute, bind.
  destruct (is_hit _ _ _) as [[e|[]] s2]; try done.
  unfold rinvoke, invoke, of_pyfun.
  by destruct (f args kwargs (st_world s2)) as [r w].
Qed.

(** ** What grows *)

Lemma grows_same s s' :
  calls s' = calls s →
  args_hash_result_map s' = args_hash_result_map s →
  args_return_value_map s' = args_return_value_map s →
  grows s s'.
Proof.
  intros Hc Hh Hv. split; [exists []; by rewrite app_nil_r|].
  by rewrite Hh, Hv.
Qed.

Lemma grows_refl s : grows s s.
Proof. by apply grows_same. Qed.

Lemma grows_trans s1 s2 s3 : grows s1 s2 → grows s2 s3 → grows s1 s3.
Proof.
  intros ([l1 Hc1] & Hh1 & Hv1) ([l2 Hc2] & Hh2 & Hv2). split; [|split].
  - exists (l1 ++ l2). by rewrite Hc2, Hc1, app_assoc.
  - auto.
  - auto.
Qed.

Lemma grows_set_world w s : grows s (set_world w s).
Proof. by apply grows_same. Qed.

Lemma grows_log_call c s : grows s (log_call c s).
Proof. split; [by exists [c]|done]. Qed.

Lemma grows_stored sig t v s : grows s (stored sig t v s).
Proof.
  split; [exists []; by rewrite app_nil_r|].
  split; intros k Hk; simpl; rewrite lookup_insert; by case_decide.
Qed.

Lemma run_body_grows
    (self : list pyval → list (string * pyval) → M (fs := fs) pyval) b s :
  (∀ args kwargs s', grows s' (self args kwargs s').2) →
  grows s (run_body self b s).2.
Proof.
  intros Hself. revert s.
  induction b as [r w|w args kwargs k IH]; intros s; simpl.
  - apply grows_set_world.
  - pose proof (Hself args kwargs (set_world w s)) as Hcall.
    destruct (self args kwargs (set_world w s)) as [r s'].
    eapply grows_trans; [apply grows_set_world|].
    eapply grows_trans; [exact Hcall|]. apply IH.
Qed.

Lemma rwrapper_grows depth args kwargs s :
  disk_tier_off diskcache_dir →
  grows s (rwrapper retain_hash_fn return_copy diskcache_dir function
             function_module function_name depth args kwargs s).2.
Proof.
  intros Hoff. revert args kwargs s.
  induction depth as [|depth IH]; intros args kwargs s;
    [apply grows_refl|].
  rewrite (rwrapper_off _ _ _ _ Hoff).
  destruct (retain_hash_fn args kwargs (st_world s)) as [[e|t] w0];
    [apply grows_set_world|].
  eapply grows_trans; [apply (grows_set_world w0)|].
  set (s0 := set_world w0 s).
  destruct (lookup_or_compute_by_cases
              (rinvoke function
                 (rwrapper retain_hash_fn return_copy diskcache_dir function
                    function_module function_name depth) args kwargs)
              (call_signature function_module function_name args kwargs)
              t s0) as [(e & ->) | [(v & ->) | (_ & ->)]].
  - apply grows_refl.
  - destruct return_copy; [|apply grows_refl].
    destruct (copy_copy_cases v s0) as [-> | (l & _ & ->)];
      by apply grows_same.
  - unfold rinvoke.
    pose proof (run_body_grows _ (function args kwargs (st_world s0)) s0 IH)
      as Hbody.
    destruct (run_body _ _ s0) as [[e|v] s1]; simpl in *.
    + eapply grows_trans; [exact Hbody|apply grows_log_call].
    + eapply grows_trans; [exact Hbody|].
      eapply grows_trans; [apply grows_log_call|apply grows_stored].
Qed.

(** ** The claims about invocations *)

(** The end of line 73 for a body that makes no call. *)
Lemma rinvoke_finish
    (self : list pyval → list (string * pyval) → M (fs := fs) pyval)
    args kwargs s r w :
  function args kwargs (st_world s) = Finish r w →
  rinvoke function self args kwargs s
  = (r, log_call (args, kwargs, r) (set_world w s)).
Proof. intros Hf. unfold rinvoke. by rewrite Hf. Qed.


(** C8, amended. Exception transparency, without a disk tier: if a call
    invokes the wrapped function and it raises [e] (its invocation is
    the last of those the call recorded), the call raises [e] and leaves
    both dictionaries as the run of the function left them: the failed
    call stores nothing of its own.  They are as before the call when
    the body made no call through the wrapper. *)
Theorem exception_transparency_general depth args kwargs s e :
  let rwrapper' := rwrapper retain_hash_fn return_copy diskcache_dir
                     function function_module function_name in
  let run := rwrapper' (S depth) args kwargs s in
  disk_tier_off diskcache_dir →
  (∃ nested, calls run.2 = calls s ++ nested ++ [(args, kwargs, Raise e)]) →
  ∃ t w0,
    retain_hash_fn args kwargs (st_world s) = (Return t, w0) ∧
    let after := run_body (rwrapper' depth) (function args kwargs w0)
                   (set_world w0 s) in
    after.1 = Raise e ∧
    run.1 = Raise e ∧
    args_hash_result_map run.2 = args_hash_result_map after.2 ∧
    args_return_value_map run.2 = args_return_value_map after.2 ∧
    (∀ r w, function args kwargs w0 = Finish r w →
            args_hash_result_map run.2 = args_hash_result_map s ∧
            args_return_value_map run.2 = args_return_value_map s).
Proof.
  intros rwrapper' run Hoff [nested Hlog]. subst run rwrapper'.
  rewrite (rwrapper_off _ _ _ _ Hoff) in *.
  assert (∀ s' : state (fs := fs),
            calls s' = calls s →
            calls s' ≠ calls s ++ nested ++ [(args, kwargs, Raise e)])
    as Hsame.
  { intros s' Hc Hbad. rewrite Hc in Hbad.
    apply (f_equal length) in Hbad. rewrite !length_app in Hbad.
    simpl in Hbad. lia. }
  destruct (retain_hash_fn args kwargs (st_world s)) as [[e0|t] w0].
  { by destruct (Hsame (set_world w0 s)). }
  exists t, w0. split; [done|].
  set (s0 := set_world w0 s) in *.
  destruct (lookup_or_compute_by_cases
              (rinvoke function
                 (rwrapper retain_hash_fn return_copy diskcache_dir function
                    function_module function_name depth) args kwargs)
              (call_signature function_module function_name args kwargs)
              t s0) as [(e1 & Hrun) | [(v & Hrun) | (_ & Hrun)]];
    rewrite Hrun in *; clear Hrun.
  - by destruct (Hsame s0).
  - destruct return_copy; [|by destruct (Hsame s0)].
    destruct (copy_copy_cases v s0) as [Hc | (l & _ & Hc)];
      simpl in Hc; rewrite Hc in Hlog; by destruct (Hsame s0).
  - unfold rinvoke in *. simpl.
    destruct (run_body _ (function args kwargs (st_world s0)) s0)
      as [r s_b] eqn:Hbody.
    assert (r = Raise e) as ->.
    { destruct r as [e1|v1]; simpl in Hlog;
        rewrite !app_assoc in Hlog;
        apply app_inj_tail in Hlog as [_ Hlast]; congruence. }
    change (st_world s0) with w0 in Hbody. rewrite Hbody. simpl.
    do 4 (split; [done|]).
    intros r' w' Hf. rewrite Hf in Hbody. simpl in Hbody.
    by injection Hbody as _ <-.
Qed.

(** X3. No call removes an entry, without a disk tier and however the
    wrapped function calls the wrapper: a signature that has a token or
    a value before a call has one after it.  And when the body of the
    wrapped function makes no call through the wrapper for these
    arguments, the token and the value of every signature other than
    the call's own are what they were. *)
Theorem entries_never_removed depth args kwargs s sig' :
  let sig := call_signature function_module function_name args kwargs in
  let run := rwrapper retain_hash_fn return_copy diskcache_dir function
               function_module function_name depth args kwargs s in
  disk_tier_off diskcache_dir →
  (is_Some (args_hash_result_map s !! sig') →
   is_Some (args_hash_result_map run.2 !! sig')) ∧
  (is_Some (args_return_value_map s !! sig') →
   is_Some (args_return_value_map run.2 !! sig')) ∧
  ((∀ w, ∃ r w', function args kwargs w = Finish r w') →
   sig' ≠ sig →
   args_hash_result_map run.2 !! sig' = args_hash_result_map s !! sig' ∧
   args_return_value_map run.2 !! sig' = args_return_value_map s !! sig').
Proof.
  intros sig run Hoff. subst run.
  destruct (rwrapper_grows depth args kwargs s Hoff) as (_ & Hh & Hv).
  split; [apply Hh|]. split; [apply Hv|]. intros Hfin Hne.
  destruct depth as [|depth]; [done|].
  rewrite (rwrapper_off _ _ _ _ Hoff). fold sig.
  destruct (retain_hash_fn args kwargs (st_world s)) as [[e|t] w0]; [done|].
  set (s0 := set_world w0 s).
  destruct (lookup_or_compute_by_cases
              (rinvoke function
                 (rwrapper retain_hash_fn return_copy diskcache_dir function
                    function_module function_name depth) args kwargs)
              sig t s0) as [(e & ->) | [(v & ->) | (_ & ->)]].
  - done.
  - destruct return_copy; [|done].
    by destruct (copy_copy_cases v s0) as [-> | (l & _ & ->)].
  - destruct (Hfin (st_world s0)) as (r & w' & Hf).
    rewrite (rinvoke_finish _ _ _ _ _ _ Hf).
    destruct r as [e|v]; simpl; [done|].
    by rewrite !lookup_insert_ne.
Qed.

(** X4. Without a disk tier, one call through the wrapper runs the
    body of the wrapped function at most once, with the arguments of
    the call, in the world the freshness function left, and records
    this invocation last, after those of the calls the body makes
    through the wrapper.  When the body makes no such call, the record
    of invocations is unchanged or longer by exactly this one. *)
Theorem one_body_run_per_call depth args kwargs s :
  let rwrapper' := rwrapper retain_hash_fn return_copy diskcache_dir
                     function function_module function_name in
  let run := rwrapper' (S depth) args kwargs s in
  disk_tier_off diskcache_dir →
  calls run.2 = calls s ∨
  ∃ t w0,
    retain_hash_fn args kwargs (st_world s) = (Return t, w0) ∧
    let after := run_body (rwrapper' depth) (function args kwargs w0)
                   (set_world w0 s) in
    calls run.2 = calls after.2 ++ [(args, kwargs, after.1)] ∧
    (∀ r w, function args kwargs w0 = Finish r w →
            calls run.2 = calls s ++ [(args, kwargs, r)]).
Proof.
  intros rwrapper' run Hoff. subst run rwrapper'.
  rewrite (rwrapper_off _ _ _ _ Hoff).
  destruct (retain_hash_fn args kwargs (st_world s)) as [[e|t] w0];
    [by left|].
  set (s0 := set_world w0 s).
  destruct (lookup_or_compute_by_cases
              (rinvoke function
                 (rwrapper retain_hash_fn return_copy diskcache_dir function
                    function_module function_name depth) args kwargs)
              (call_signature function_module function_name args kwargs)
              t s0) as [(e & ->) | [(v & ->) | (_ & ->)]].
  - by left.
  - left. destruct return_copy; [|done].
    by destruct (copy_copy_cases v s0) as [-> | (l & _ & ->)].
  - right. exists t, w0. split; [done|]. unfold rinvoke. simpl.
    change (st_world s0) with w0. fold s0.
    destruct (run_body _ (function args kwargs w0) s0) as [r s_b] eqn:Hbody.
    assert (calls (match r with
                   | inl e => (Raise e, log_call (args, kwargs, r) s_b)
                   | inr v => (Return v,
                               stored (call_signature function_module
                                         function_name args kwargs) t v
                                 (log_call (args, kwargs, r) s_b))
                   end).2 = calls s_b ++ [(args, kwargs, r)]) as Hc
      by (by destruct r).
    simpl. split; [exact Hc|].
    intros r' w Hf. rewrite Hf in Hbody. simpl in Hbody.
    injection Hbody as <- <-. exact Hc.
Qed.

End reentry_facts.

(** ** The claims about invocations on concrete runs *)



(** C8 as stated fails for a wrapped function that calls the wrapper
    before it raises.  [retry_once]: the call [f(5)] raises, and the
    entry of its own signature, absent before, holds the value the
    inner call returned.  [fails_after_inner]: the call [f(1)] raises
    and leaves the entry of [f(0)]. *)
Lemma failed_call_leaves_entries :
  let sig5 := call_signature "m" "f" [VInt 5] [] in
  let sig0 := call_signature "m" "f" [VInt 0] [] in
  let run := rwrapper default_retain_hash_fn true VNone retry_once "m" "f"
               10 [VInt 5] [] (initial_state flag_unset) in
  let run' := rwrapper default_retain_hash_fn true VNone fails_after_inner
                "m" "f" 10 [VInt 1] [] (initial_state (World ∅ ∅)) in
  run.1 = Raise (UserError "boom") ∧
  calls run.2 = [([VInt 5], [], Return (VInt 1));
                 ([VInt 5], [], Raise (UserError "boom"))] ∧
  args_return_value_map (initial_state flag_unset) !! sig5 = None ∧
  args_return_value_map run.2 !! sig5 = Some (VInt 1) ∧
  run'.1 = Raise (UserError "boom") ∧
  calls run'.2 = [([VInt 0], [], Return (VInt 0));
                  ([VInt 1], [], Raise (UserError "boom"))] ∧
  args_return_value_map run'.2 !! sig0 = Some (VInt 0).
Proof. repeat split; vm_compute; reflexivity. Qed.

(** Exception transparency on [f(1)] through the wrapper around
    [fails_after_inner]. *)
Lemma exception_transparency_general_witness :
  let rwrapper' := rwrapper default_retain_hash_fn true VNone
                     fails_after_inner "m" "f" in
  let s := initial_state (fs := mem_fs) (World ∅ ∅) in
  let run := rwrapper' 10 [VInt 1] [] s in
  let after := run_body (rwrapper' 9) (fails_after_inner [VInt 1] [] (World ∅ ∅))
                 (set_world (World ∅ ∅) s) in
  run.1 = Raise (UserError "boom") ∧
  args_hash_result_map run.2 = args_hash_result_map after.2 ∧
  args_return_value_map run.2 = args_return_value_map after.2.
Proof.
  intros rwrapper' s run after.
  destruct (exception_transparency_general default_retain_hash_fn true VNone
              fails_after_inner "m" "f" 9 [VInt 1] [] s (UserError "boom"))
    as (t & w0 & Hfresh & _ & Hrun & Hh & Hv & _).
  - by intros h.
  - exists [([VInt 0], [], Return (VInt 0))]. vm_compute. reflexivity.
  - injection Hfresh as <- <-. split; [exact Hrun|]. by split.
Defined.

(** The entry of [f(0)] is still there after [f(2)]. *)
Lemma entries_never_removed_witness :
  is_Some
    (args_return_value_map
       (rwrapper default_retain_hash_fn true VNone count_up "m" "f" 10
          [VInt 2] [] after_count_up_zero).2
     !! call_signature "m" "f" [VInt 0] []).
Proof.
  destruct (entries_never_removed default_retain_hash_fn true VNone
              count_up "m" "f" 10 [VInt 2] [] after_count_up_zero
              (call_signature "m" "f" [VInt 0] []))
    as (_ & Hkept & _).
  - by intros h.
  - apply Hkept. vm_compute. eauto.
Defined.

(** The call [f(2)] through the wrapper around [count_up]. *)
Lemma one_body_run_per_call_witness :
  let rwrapper' := rwrapper default_retain_hash_fn true VNone count_up
                     "m" "f" in
  let s := initial_state (fs := mem_fs) (World ∅ ∅) in
  let run := rwrapper' 10 [VInt 2] [] s in
  calls run.2 = calls s ∨
  ∃ t w0,
    default_retain_hash_fn [VInt 2] [] (st_world s) = (Return t, w0) ∧
    let after := run_body (rwrapper' 9) (count_up [VInt 2] [] w0)
                   (set_world w0 s) in
    calls run.2 = calls after.2 ++ [([VInt 2], [], after.1)] ∧
    (∀ r w, count_up [VInt 2] [] w0 = Finish r w →
            calls run.2 = calls s ++ [([VInt 2], [], r)]).
Proof.
  apply (one_body_run_per_call default_retain_hash_fn true VNone count_up
           "m" "f" 9 [VInt 2] [] (initial_state (World ∅ ∅))).
  by intros h.
Defined.
